(** * Simple Flask API application: a shallow embedding

    The development follows [examples/simple-python/app/__init__.py].

    - [os.environ] is a finite map from names to values;
    - [request.args] is the multi-dict of decoded query parameters, kept as
      an association list in the order of the query string;
    - the body that [jsonify] builds from a dict literal is a finite map from
      keys to JSON scalars;
    - [datetime.utcnow()] is a clock reading that each call receives from the
      world it runs in;
    - [url_map] holds the three rules the module registers with [app.route],
      each for [GET]; the rule that [Flask(__name__)] itself adds for static
      files, [/static/<path:filename>], is kept beside them, and the static
      folder is empty, the repository having no [app/static];
    - URL matching is werkzeug's: the path as it is given first, then the
      path with its doubled slashes merged, which is answered with a
      redirect;
    - [request.path] begins with one slash and only one;
    - a fault that no handler of an HTTP error takes is wrapped in
      [InternalServerError] before the handler of status 500 sees it, and is
      raised again, past every handler, in debug or testing mode;
    - a response is the object that the application hands to the server
      layer: the status code and the body as the handlers build them;
    - texts are strings of one-byte characters; [int()] is modelled on
      ASCII text. *)

From Stdlib Require Import ZArith NArith Ascii String List Lia.
From stdpp Require Import base option gmap strings list fin_maps.

Local Open Scope string_scope.
Local Open Scope Z_scope.

(** ** Python values and exceptions used by the module *)

Inductive result (E A : Type) : Type :=
| Ok (a : A)
| Raise (e : E).
Arguments Ok {E A} a.
Arguments Raise {E A} e.

(** The two kinds of object that [os.environ.get(key, default)] hands to
    [int] in this module: an environment string or the integer default. *)
Inductive pyval : Type :=
| PyStr (s : string)
| PyInt (z : Z).

(** [ValueError] carries the offending literal, as the message of
    [int()] does. *)
Inductive ValueError : Type :=
| InvalidLiteral (s : string).

Module Py.

(** *** Characters *)

Definition ord (c : ascii) : N := N_of_ascii c.

(** White space skipped by [int()] around a literal: TAB, LF, VT, FF, CR
    and the space. *)
Definition isspace (c : ascii) : bool :=
  let n := ord c in ((9 <=? n) && (n <=? 13) || (n =? 32))%N.

Definition isdigit (c : ascii) : bool :=
  let n := ord c in ((48 <=? n) && (n <=? 57))%N.

Definition digit_value (c : ascii) : Z := Z.of_N (ord c) - 48.

Definition digit_char (d : N) : ascii := ascii_of_N (48 + d).

Definition underscore : ascii := "_"%char.

(** *** [int(str)], base 10 *)

Fixpoint skip_spaces (s : string) : string :=
  match s with
  | String c s' => if isspace c then skip_spaces s' else s
  | EmptyString => s
  end.

(** The digit loop: digits, with single underscores between them.  The
    result is the value read, whether a digit was seen, and the rest of the
    text; [None] when an underscore is doubled or trails the digits. *)
Fixpoint scan_digits (s : string) (prev_underscore seen : bool) (acc : Z)
  : option (Z * bool * string) :=
  match s with
  | EmptyString => if prev_underscore then None else Some (acc, seen, s)
  | String c s' =>
      if isdigit c then scan_digits s' false true (10 * acc + digit_value c)
      else if Ascii.eqb c underscore then
        if prev_underscore then None else scan_digits s' true seen acc
      else if prev_underscore then None else Some (acc, seen, s)
  end.

Definition starts_with_underscore (s : string) : bool :=
  match s with
  | String c _ => Ascii.eqb c underscore
  | EmptyString => false
  end.

(** Sign, digits, trailing white space, end of text. *)
Definition parse_int (s : string) : option Z :=
  let s1 := skip_spaces s in
  let '(sign, s2) :=
    match s1 with
    | String c r =>
        if Ascii.eqb c "+"%char then (1, r)
        else if Ascii.eqb c "-"%char then (-1, r)
        else (1, s1)
    | EmptyString => (1, s1)
    end in
  if starts_with_underscore s2 then None
  else
    match scan_digits s2 false false 0 with
    | Some (v, true, rest) =>
        match skip_spaces rest with
        | EmptyString => Some (sign * v)
        | String _ _ => None
        end
    | _ => None
    end.

(** [int(x)]: an integer is returned as it is, a string is parsed. *)
Definition int (x : pyval) : result ValueError Z :=
  match x with
  | PyInt z => Ok z
  | PyStr s =>
      match parse_int s with
      | Some z => Ok z
      | None => Raise (InvalidLiteral s)
      end
  end.

(** *** Decimal formatting *)

(** [str(n)] for a natural number: the decimal digits, most significant
    first, no leading zero. *)
Fixpoint decimal_aux (fuel : nat) (n : N) (acc : string) : string :=
  match fuel with
  | O => acc
  | S fuel' =>
      let acc' := String (digit_char (n mod 10)) acc in
      if (n <? 10)%N then acc' else decimal_aux fuel' (n / 10) acc'
  end.

Definition decimal (n : N) : string :=
  decimal_aux (S (N.to_nat (N.log2 n))) n "".

Fixpoint zeros (k : nat) : string :=
  match k with
  | O => ""
  | S k' => String "0"%char (zeros k')
  end.

(** ['%0wd' % n]: at least [w] characters, padded with zeros on the left. *)
Definition fmt_0d (w : nat) (n : N) : string :=
  let s := decimal n in
  zeros (w - String.length s) ++ s.

(** The [w] low decimal digits of [n], most significant first: what
    [fmt_0d w n] prints when [n] has at most [w] digits (see
    [fmt_0d_digits]). *)
Fixpoint digits (w : nat) (n : N) : string :=
  match w with
  | O => ""
  | S w' => String (digit_char ((n / 10 ^ N.of_nat w') mod 10)) (digits w' n)
  end.

End Py.

(** Whether a text holds a decimal digit. *)
Fixpoint has_digit (s : string) : bool :=
  match s with
  | EmptyString => false
  | String c s' => Py.isdigit c || has_digit s'
  end.

(** [str.isascii()]: every character is below 128. *)
Fixpoint isascii (s : string) : bool :=
  match s with
  | EmptyString => true
  | String c s' => (Py.ord c <? 128)%N && isascii s'
  end.

(** ** The process environment and start-up *)

Definition environ_get (environ : gmap string string) (key : string)
  (default : pyval) : pyval :=
  match environ !! key with
  | Some v => PyStr v
  | None => default
  end.

(** [PORT = int(os.environ.get('PORT', 3000))], run when the module is
    imported. *)
Definition PORT (environ : gmap string string) : result ValueError Z :=
  Py.int (environ_get environ "PORT" (PyInt 3000)).

(** [bool(x)] for the values above; [None] is the missing default of
    [os.environ.get(key)]. *)
Definition truthy (x : option pyval) : bool :=
  match x with
  | None => false
  | Some (PyStr s) => negb (String.eqb s "")
  | Some (PyInt z) => negb (z =? 0)
  end.

(** [os.environ.get(key)], with no default. *)
Definition environ_get_opt (environ : gmap string string) (key : string)
  : option pyval :=
  PyStr <$> environ !! key.

(** ** [datetime] *)

Module datetime.

Record t : Type := mk {
  year : N; month : N; day : N;
  hour : N; minute : N; second : N; microsecond : N
}.

Definition is_leap (y : N) : bool :=
  ((y mod 4 =? 0) && (negb (y mod 100 =? 0) || (y mod 400 =? 0)))%N.

Definition days_in_month (y m : N) : N :=
  match m with
  | 2 => if is_leap y then 29 else 28
  | 4 | 6 | 9 | 11 => 30
  | _ => 31
  end%N.

(** The ranges the constructor of [datetime] enforces. *)
Definition valid (d : t) : bool :=
  ((1 <=? year d) && (year d <=? 9999)
   && (1 <=? month d) && (month d <=? 12)
   && (1 <=? day d) && (day d <=? days_in_month (year d) (month d))
   && (hour d <? 24) && (minute d <? 60) && (second d <? 60)
   && (microsecond d <? 1000000))%N.

(** Comparison of two naive datetimes: field by field, year first. *)
Definition lex (c1 c2 : comparison) : comparison :=
  match c1 with
  | Eq => c2
  | _ => c1
  end.

Definition compare (a b : t) : comparison :=
  lex (year a ?= year b)%N
 (lex (month a ?= month b)%N
 (lex (day a ?= day b)%N
 (lex (hour a ?= hour b)%N
 (lex (minute a ?= minute b)%N
 (lex (second a ?= second b)%N
      (microsecond a ?= microsecond b)%N))))).

Definition le (a b : t) : Prop := compare a b <> Gt.

(** [isoformat()] of a naive datetime, with the default separator and
    [timespec='auto']: the fraction is printed only when it is not zero. *)
Definition isoformat (d : t) : string :=
  Py.fmt_0d 4 (year d) ++ "-" ++ Py.fmt_0d 2 (month d) ++ "-"
    ++ Py.fmt_0d 2 (day d) ++ "T"
    ++ Py.fmt_0d 2 (hour d) ++ ":" ++ Py.fmt_0d 2 (minute d) ++ ":"
    ++ Py.fmt_0d 2 (second d)
    ++ (if (microsecond d =? 0)%N then ""
        else "." ++ Py.fmt_0d 6 (microsecond d)).

End datetime.

(** ** Requests, responses and exceptions *)

Inductive http_method : Type :=
| GET | HEAD | POST | PUT | DELETE | CONNECT | OPTIONS | TRACE | PATCH.

#[global] Instance http_method_eq_dec : EqDecision http_method.
Proof. solve_decision. Defined.

(** What a handler can read of the process it runs in: [os.environ] and the
    clock behind [datetime.utcnow()]. *)
Record World : Type := mkWorld {
  environ : gmap string string;
  utcnow : datetime.t
}.

(** [request]: the method, [request.path] and [request.args]. *)
Record Request : Type := mkRequest {
  method : http_method;
  path : string;
  args : list (string * string)
}.

(** [MultiDict.get(key, default)]: the first value stored for the key. *)
Fixpoint args_get (a : list (string * string)) (key default : string)
  : string :=
  match a with
  | [] => default
  | (k, v) :: rest => if String.eqb k key then v else args_get rest key default
  end.

(** [MultiDict.getlist(key)]: every value supplied for the key, in the
    order of the query string. *)
Definition getlist (a : list (string * string)) (key : string) : list string :=
  List.map snd (List.filter (fun kv => String.eqb (fst kv) key) a).

Inductive jvalue : Type :=
| JStr (s : string)
| JInt (z : Z).

(** A response body: the JSON object made by [jsonify], the page the
    framework (or, for a fault that escapes the application, the server)
    renders for an error nobody handles, nothing, the page of a redirect to
    another path, or the content of a static file. *)
Inductive Body : Type :=
| JsonBody (o : gmap string jvalue)
| ErrorPage (code : Z)
| EmptyBody
| RedirectPage (location : string)
| FileBody (content : string).

Record Response : Type := mkResponse {
  status_code : Z;
  body : Body
}.

(** [jsonify(d), code] *)
Definition jsonify (d : gmap string jvalue) (code : Z) : Response :=
  {| status_code := code; body := JsonBody d |}.

(** What a view or the URL matching can raise: the HTTP exceptions
    [NotFound], [MethodNotAllowed] and [InternalServerError], the last one
    with the text of the fault it wraps when the framework made it, and any
    other fault, of which the model keeps the text that [str()] gives. *)
Inductive exn : Type :=
| NotFound
| MethodNotAllowed
| Exception (msg : string)
| InternalServerError (original_exception : option string).

(** The text of an [InternalServerError]: its code, its name and its fixed
    description; the fault it wraps is no part of it. *)
Definition InternalServerError_text : string :=
  "500 Internal Server Error: The server encountered an internal error and was unable to complete your request. Either the server is overloaded or there is an error in the application.".

(** [str(error)] *)
Definition str (e : exn) : string :=
  match e with
  | NotFound =>
      "404 Not Found: The requested URL was not found on the server. If you entered the URL manually please check your spelling and try again."
  | MethodNotAllowed =>
      "405 Method Not Allowed: The method is not allowed for the requested URL."
  | Exception msg => msg
  | InternalServerError _ => InternalServerError_text
  end.

(** ** The handlers of the module *)

Definition view_func : Type := World -> Request -> result exn Response.
Definition error_handler : Type := exn -> World -> Request -> Response.

Definition health : view_func := fun w _ =>
  Ok (jsonify {[ "status" := JStr "OK";
                 "timestamp" := JStr (datetime.isoformat (utcnow w));
                 "status_code" := JInt 200 ]} 200).

Definition info : view_func := fun _ _ =>
  Ok (jsonify {[ "name" := JStr "Simple Python Example";
                 "version" := JStr "1.0.0";
                 "description" := JStr "Example project for CI/CD Toolkit";
                 "language" := JStr "Python" ]} 200).

Definition hello : view_func := fun _ req =>
  let name := args_get (args req) "name" "World" in
  Ok (jsonify {[ "message" := JStr ("Hello, " ++ name ++ "!") ]} 200).

Definition not_found : error_handler := fun error _ req =>
  jsonify {[ "error" := JStr "Not Found";
             "path" := JStr (path req) ]} 404.

Definition internal_error : error_handler := fun error w _ =>
  jsonify {[ "error" := JStr "Internal Server Error";
             "message" := JStr (if truthy (environ_get_opt (environ w) "DEBUG")
                                then str error
                                else "An error occurred") ]} 500.

(** ** The framework: URL rules, dispatch and error handling *)

Record Rule : Type := mkRule {
  rule : string;
  methods : list http_method;
  view : view_func
}.

(** The application object: the rules added with [app.route], the handlers
    registered with [app.errorhandler], the URL prefix of the rule that the
    constructor adds for static files (none when there is no static folder),
    the files of that folder by name, and the [debug] and [TESTING] flags. *)
Record Flask : Type := mkFlask {
  url_map : list Rule;
  error_handler_spec : gmap Z error_handler;
  static_url_path : option string;
  static_folder : gmap string string;
  debug : bool;
  testing : bool
}.

Module flask.

(** A rule registered for [GET] also answers [HEAD]; every rule answers
    [OPTIONS]. *)
Definition allowed (r : Rule) : list http_method :=
  methods r ++ (if decide (GET ∈ methods r) then [HEAD] else []) ++ [OPTIONS].

Definition path_matches (p : string) (r : Rule) : bool := String.eqb (rule r) p.

Definition method_matches (m : http_method) (r : Rule) : bool :=
  bool_decide (m ∈ allowed r).

(** The methods of the rule for static files. *)
Definition static_methods : list http_method := [GET; HEAD; OPTIONS].

Definition newline : ascii := ascii_of_N 10.

(** What [.*?$] takes of a text: all of it when it holds no newline, all but
    the last character when only that is a newline. *)
Fixpoint lazy_to_end (s : string) : option string :=
  match s with
  | EmptyString => Some EmptyString
  | String c s' =>
      if Ascii.eqb c newline then
        match s' with
        | EmptyString => Some EmptyString
        | String _ _ => None
        end
      else option_map (String c) (lazy_to_end s')
  end.

(** The [path] converter, [[^/].*?] up to the end: the text it takes. *)
Definition path_converter (s : string) : option string :=
  match s with
  | EmptyString => None
  | String c s' =>
      if Ascii.eqb c "/"%char then None
      else option_map (String c) (lazy_to_end s')
  end.

Fixpoint drop_prefix (prefix s : string) : option string :=
  match prefix, s with
  | EmptyString, _ => Some s
  | String a prefix', String b s' =>
      if Ascii.eqb a b then drop_prefix prefix' s' else None
  | String _ _, EmptyString => None
  end.

(** The file name under which the rule [<static_url_path>/<path:filename>]
    matches a path, if it does. *)
Definition static_filename (app : Flask) (p : string) : option string :=
  match static_url_path app with
  | None => None
  | Some base =>
      match drop_prefix (base ++ "/") p with
      | Some rest => path_converter rest
      | None => None
      end
  end.

(** What a request is matched to. *)
Inductive target : Type :=
| View (r : Rule)
| StaticFile (filename : string).

(** One pass of the matcher over a path: the rule and method that match, if
    any, and whether some rule has the path but not the method. *)
Definition match_pass (app : Flask) (m : http_method) (p : string)
  : option target * bool :=
  let candidates := List.filter (path_matches p) (url_map app) in
  match List.find (method_matches m) candidates with
  | Some r => (Some (View r), false)
  | None =>
      let have_match_for :=
        match candidates with
        | [] => false
        | _ :: _ => true
        end in
      match static_filename app p with
      | Some filename =>
          if bool_decide (m ∈ static_methods)
          then (Some (StaticFile filename), have_match_for)
          else (None, true)
      | None => (None, have_match_for)
      end
  end.

(** [re.sub("/{2,}?", "/", path)]: each pair of slashes becomes one. *)
Fixpoint merge_slashes (s : string) : string :=
  match s with
  | EmptyString => EmptyString
  | String c s' =>
      match s' with
      | String c' s'' =>
          if Ascii.eqb c "/"%char && Ascii.eqb c' "/"%char
          then String "/"%char (merge_slashes s'')
          else String c (merge_slashes s')
      | EmptyString => String c EmptyString
      end
  end.

(** The outcome of URL matching when it does not fail. *)
Inductive matched : Type :=
| Matched (t : target)
| Redirect (new_path : string).

(** URL matching: the path as given; when nothing matches, once more with
    the slashes merged, and a match then asks for a redirect to the merged
    path.  Otherwise [MethodNotAllowed] when a rule had the path but not the
    method, and [NotFound] when none had. *)
Definition match_request (app : Flask) (req : Request) : result exn matched :=
  let '(rv, have1) := match_pass app (method req) (path req) in
  match rv with
  | Some t => Ok (Matched t)
  | None =>
      let merged := merge_slashes (path req) in
      let '(rv2, have2) := match_pass app (method req) merged in
      match rv2 with
      | Some _ => Ok (Redirect merged)
      | None => if have1 || have2 then Raise MethodNotAllowed else Raise NotFound
      end
  end.

(** The automatic answer to [OPTIONS]. *)
Definition default_options_response : Response :=
  {| status_code := 200; body := EmptyBody |}.

(** [send_static_file(filename)]: the file when the static folder has it. *)
Definition send_static_file (app : Flask) (filename : string)
  : result exn Response :=
  match static_folder app !! filename with
  | Some content => Ok {| status_code := 200; body := FileBody content |}
  | None => Raise NotFound
  end.

(** The answer to a path that matches only after its slashes are merged:
    status 308 and the way to the merged path. *)
Definition redirect_response (new_path : string) : Response :=
  {| status_code := 308; body := RedirectPage new_path |}.

Definition dispatch_request (app : Flask) (w : World) (req : Request)
  : result exn Response :=
  match match_request app req with
  | Raise e => Raise e
  | Ok (Redirect new_path) => Ok (redirect_response new_path)
  | Ok (Matched (View r)) =>
      if bool_decide (method req = OPTIONS)
         && negb (bool_decide (OPTIONS ∈ methods r))
      then Ok default_options_response
      else view r w req
  | Ok (Matched (StaticFile filename)) =>
      if bool_decide (method req = OPTIONS)
      then Ok default_options_response
      else send_static_file app filename
  end.

(** The status code under which an exception looks for its handler: its
    own for an HTTP exception, 500 for any other. *)
Definition code_of (e : exn) : Z :=
  match e with
  | NotFound => 404
  | MethodNotAllowed => 405
  | Exception _ => 500
  | InternalServerError _ => 500
  end.

(** An HTTP exception goes to the handler registered for its code, and is
    rendered by the framework when there is none. *)
Definition handle_http_exception (app : Flask) (e : exn) (w : World)
  (req : Request) : Response :=
  match error_handler_spec app !! code_of e with
  | Some handler => handler e w req
  | None => {| status_code := code_of e; body := ErrorPage (code_of e) |}
  end.

(** Any other fault is raised again. *)
Definition handle_user_exception (app : Flask) (e : exn) (w : World)
  (req : Request) : result exn Response :=
  match e with
  | Exception _ => Raise e
  | _ => Ok (handle_http_exception app e w req)
  end.

Definition full_dispatch_request (app : Flask) (w : World) (req : Request)
  : result exn Response :=
  match dispatch_request app w req with
  | Ok rv => Ok rv
  | Raise e => handle_user_exception app e w req
  end.

(** [PROPAGATE_EXCEPTIONS], left unset: on in testing and in debug mode. *)
Definition propagate_exceptions (app : Flask) : bool := testing app || debug app.

(** A fault that reaches here is raised again when exceptions propagate;
    otherwise it is wrapped in [InternalServerError], and the wrapper goes to
    the handler of status 500. *)
Definition handle_exception (app : Flask) (e : exn) (w : World)
  (req : Request) : result exn Response :=
  if propagate_exceptions app then Raise e
  else Ok (handle_http_exception app (InternalServerError (Some (str e))) w req).

Definition wsgi_app (app : Flask) (w : World) (req : Request)
  : result exn Response :=
  match full_dispatch_request app w req with
  | Ok rv => Ok rv
  | Raise e => handle_exception app e w req
  end.

(** What goes back to the client: the response of the application, or the
    server's own page of status 500 when the application raises. *)
Definition respond (app : Flask) (w : World) (req : Request) : Response :=
  match wsgi_app app w req with
  | Ok rv => rv
  | Raise _ => {| status_code := 500; body := ErrorPage 500 |}
  end.

End flask.

(** ** The application *)

Definition app : Flask :=
  {| url_map :=
       [ {| rule := "/health"; methods := [GET]; view := health |};
         {| rule := "/api/info"; methods := [GET]; view := info |};
         {| rule := "/api/hello"; methods := [GET]; view := hello |} ];
     error_handler_spec := {[ 404 := not_found; 500 := internal_error ]};
     static_url_path := Some "/static";
     static_folder := ∅;
     debug := false;
     testing := false |}.

(** What the imported module keeps between requests. *)
Record AppState : Type := mkAppState {
  port : Z
}.

Definition import_module (environ0 : gmap string string)
  : result ValueError AppState :=
  match PORT environ0 with
  | Ok p => Ok {| port := p |}
  | Raise e => Raise e
  end.

(** One request: the response, and the state the next request finds. *)
Definition serve (a : Flask) (st : AppState) (w : World) (req : Request)
  : AppState * Response :=
  (st, flask.respond a w req).

(** A history of requests, each in the world it arrives in. *)
Fixpoint serve_all (a : Flask) (st : AppState) (history : list (World * Request))
  : AppState * list Response :=
  match history with
  | [] => (st, [])
  | (w, req) :: rest =>
      let '(st1, rv) := serve a st w req in
      let '(st2, rvs) := serve_all a st1 rest in
      (st2, rv :: rvs)
  end.

(** The response to [req] in world [w], after a history of earlier
    requests. *)
Definition response_after (a : Flask) (st : AppState)
  (history : list (World * Request)) (w : World) (req : Request) : Response :=
  snd (serve a (fst (serve_all a st history)) w req).




(** ** Reading a response *)

(** [response.get_json()[key]] *)
Definition json_field (r : Response) (key : string) : option jvalue :=
  match body r with
  | JsonBody o => o !! key
  | _ => None
  end.


(** The shape of an ISO-8601 date and time, written as a picture in which
    [d] stands for a decimal digit and any other character for itself. *)
Fixpoint has_shape (picture s : string) : bool :=
  match picture, s with
  | EmptyString, EmptyString => true
  | String p picture', String c s' =>
      (if Ascii.eqb p "d"%char then Py.isdigit c else Ascii.eqb p c)
      && has_shape picture' s'
  | _, _ => false
  end.

Definition iso8601 (s : string) : bool :=
  has_shape "dddd-dd-ddTdd:dd:dd" s || has_shape "dddd-dd-ddTdd:dd:dd.dddddd" s.

(** ** Sample inputs *)

Module Sample.

Definition noon : datetime.t := datetime.mk 2024 2 29 12 0 0 0.
Definition after_noon : datetime.t := datetime.mk 2024 2 29 12 0 0 250000.

Definition plain : World := {| environ := ∅; utcnow := noon |}.
Definition later : World :=
  {| environ := {[ "PORT" := "8080"; "DEBUG" := "1" ]}; utcnow := after_noon |}.
Definition debug_empty : World :=
  {| environ := {[ "DEBUG" := "" ]}; utcnow := noon |}.

Definition st : AppState := {| port := 3000 |}.
Definition st' : AppState := {| port := 8080 |}.


Definition get (p : string) (a : list (string * string)) : Request :=
  {| method := GET; path := p; args := a |}.

End Sample.

(** ** Further notions for the properties below *)

(** A text made of white space only, as [int()] sees white space. *)
Fixpoint all_space (s : string) : bool :=
  match s with
  | EmptyString => true
  | String c s' => Py.isspace c && all_space s'
  end.

(** Whether one of the rules added with [app.route] has the path. *)
Definition has_rule (a : Flask) (p : string) : bool :=
  List.existsb (flask.path_matches p) (url_map a).

(** Whether a path holds two slashes in a row. *)
Fixpoint has_double_slash (s : string) : bool :=
  match s with
  | EmptyString => false
  | String c s' =>
      match s' with
      | String c' _ =>
          (Ascii.eqb c "/"%char && Ascii.eqb c' "/"%char) || has_double_slash s'
      | EmptyString => false
      end
  end.

(** Whether a path lies under [/static/], where the rule that the framework
    adds for static files applies. *)
Definition under_static (p : string) : bool := String.prefix "/static/" p.

(** Reading an ISO-8601 date and time back: four digits of year, two of
    month and so on, with the marks between them, and six digits of
    microseconds after a point when there is one. *)
Fixpoint read_digits (k : nat) (s : string) (acc : N) : option (N * string) :=
  match k with
  | O => Some (acc, s)
  | S k' =>
      match s with
      | String c s' =>
          if Py.isdigit c then read_digits k' s' (10 * acc + (Py.ord c - 48))%N
          else None
      | EmptyString => None
      end
  end.

Definition read_mark (c : ascii) (s : string) : option string :=
  match s with
  | String c' s' => if Ascii.eqb c c' then Some s' else None
  | EmptyString => None
  end.

Definition read_iso8601 (s : string) : option datetime.t :=
  '(year, s) ← read_digits 4 s 0%N;
  s ← read_mark "-" s;
  '(month, s) ← read_digits 2 s 0%N;
  s ← read_mark "-" s;
  '(day, s) ← read_digits 2 s 0%N;
  s ← read_mark "T" s;
  '(hour, s) ← read_digits 2 s 0%N;
  s ← read_mark ":" s;
  '(minute, s) ← read_digits 2 s 0%N;
  s ← read_mark ":" s;
  '(second, s) ← read_digits 2 s 0%N;
  match s with
  | EmptyString => Some (datetime.mk year month day hour minute second 0)
  | String _ _ =>
      s ← read_mark "." s;
      '(microsecond, s) ← read_digits 6 s 0%N;
      match s with
      | EmptyString =>
          Some (datetime.mk year month day hour minute second microsecond)
      | String _ _ => None
      end
  end.

(** * Properties *)

(** ** Decimal digits *)

Section Digits.

Local Open Scope N_scope.

Lemma pow10_pos (k : nat) : 0 < 10 ^ N.of_nat k.
Proof. apply N.neq_0_lt_0, N.pow_nonzero. discriminate. Qed.

Lemma pow10_succ (k : nat) : 10 ^ N.of_nat (S k) = 10 * 10 ^ N.of_nat k.
Proof. rewrite Nat2N.inj_succ. apply N.pow_succ_r'. Qed.

Lemma pow10_le (j k : nat) : (j <= k)%nat -> 10 ^ N.of_nat j <= 10 ^ N.of_nat k.
Proof. intros H. apply N.pow_le_mono_r; [discriminate | lia]. Qed.

Lemma ord_digit_char (d : N) : d < 10 -> Py.ord (Py.digit_char d) = 48 + d.
Proof.
  intros H. unfold Py.ord, Py.digit_char.
  apply N_ascii_embedding. lia.
Qed.

Lemma isdigit_digit_char (d : N) : d < 10 -> Py.isdigit (Py.digit_char d) = true.
Proof.
  intros H. unfold Py.isdigit. rewrite ord_digit_char by done.
  apply andb_true_intro; split; apply N.leb_le; lia.
Qed.

Lemma digit_value_digit_char (d : N) :
  d < 10 -> Py.digit_value (Py.digit_char d) = Z.of_N d.
Proof.
  intros H. unfold Py.digit_value. rewrite ord_digit_char by done. lia.
Qed.

Lemma length_digits (w : nat) (n : N) : String.length (Py.digits w n) = w.
Proof. induction w as [|w IH]; simpl; [done | by rewrite IH]. Qed.

Lemma append_nil (s : string) : ("" ++ s)%string = s.
Proof. reflexivity. Qed.

Lemma append_cons (c : ascii) (s t : string) :
  (String c s ++ t)%string = String c (s ++ t)%string.
Proof. reflexivity. Qed.

Lemma append_nil_r (s : string) : (s ++ "")%string = s.
Proof. induction s as [|c s IH]; [done | by rewrite append_cons, IH]. Qed.

Lemma string_app_assoc (a b c : string) : ((a ++ b) ++ c = a ++ (b ++ c))%string.
Proof. induction a as [|x a IH]; [done | by rewrite !append_cons, IH]. Qed.

(** Peeling the last digit off. *)
Lemma digits_snoc (k : nat) (n : N) :
  Py.digits (S k) n
  = (Py.digits k (n / 10) ++ String (Py.digit_char (n mod 10)) "")%string.
Proof.
  induction k as [|k IH].
  - simpl. by rewrite N.div_1_r.
  - change (Py.digits (S (S k)) n)
      with (String (Py.digit_char ((n / 10 ^ N.of_nat (S k)) mod 10))
              (Py.digits (S k) n)).
    rewrite IH. cbn [Py.digits]. rewrite append_cons.
    f_equal. f_equal. f_equal.
    rewrite pow10_succ, N.Div0.div_div.
    done.
Qed.

(** Digits above the number are zeros. *)
Lemma digits_zeros (j k : nat) (n : N) :
  n < 10 ^ N.of_nat k ->
  Py.digits (j + k) n = (Py.zeros j ++ Py.digits k n)%string.
Proof.
  intros Hn. induction j as [|j IH]; [done |].
  cbn [Nat.add Py.digits Py.zeros]. rewrite append_cons, IH. f_equal.
  rewrite N.div_small; [done |].
  eapply N.lt_le_trans; [exact Hn | apply pow10_le; lia].
Qed.

(** The digit loop of [decimal] prints the shortest run of digits that
    holds the number. *)
Lemma decimal_aux_digits (fuel : nat) : forall (n : N) (acc : string),
  n < 10 ^ N.of_nat (S fuel) ->
  exists k : nat,
    (k <= fuel)%nat /\ n < 10 ^ N.of_nat (S k)
    /\ (k = O \/ 10 ^ N.of_nat k <= n)
    /\ Py.decimal_aux (S fuel) n acc = (Py.digits (S k) n ++ acc)%string.
Proof.
  induction fuel as [|fuel IH]; intros n acc Hn.
  - exists O. change (10 ^ N.of_nat 1) with 10 in Hn.
    split_and!; [done | done | by left |].
    cbn [Py.decimal_aux Py.digits]. apply N.ltb_lt in Hn as ->.
    by rewrite N.div_1_r.
  - cbn [Py.decimal_aux]. destruct (N.ltb_spec n 10) as [Hlt|Hge].
    + exists O. split_and!; [lia | done | by left |].
      cbn [Py.digits]. by rewrite N.div_1_r.
    + destruct (IH (n / 10) (String (Py.digit_char (n mod 10)) acc))
        as (k & Hk & Hlt & Hmin & Heq).
      { apply N.Div0.div_lt_upper_bound. by rewrite <- pow10_succ. }
      exists (S k). split_and!.
      * lia.
      * rewrite pow10_succ.
        pose proof (N.mul_succ_div_gt n 10 ltac:(discriminate)). lia.
      * right. rewrite pow10_succ.
        pose proof (N.Div0.mul_div_le n 10).
        destruct Hmin as [->|Hmin].
        -- change (10 ^ N.of_nat 0) with 1. lia.
        -- lia.
      * cbn [Py.decimal_aux] in Heq. rewrite Heq.
        rewrite (digits_snoc (S k) n), string_app_assoc. done.
Qed.

Lemma decimal_digits (n : N) :
  exists k : nat,
    n < 10 ^ N.of_nat (S k) /\ (k = O \/ 10 ^ N.of_nat k <= n)
    /\ Py.decimal n = Py.digits (S k) n.
Proof.
  unfold Py.decimal.
  destruct (decimal_aux_digits (N.to_nat (N.log2 n)) n "") as (k & _ & H1 & H2 & H3).
  - rewrite Nat2N.inj_succ, N2Nat.id.
    destruct (N.eq_dec n 0) as [->|Hn]; [done |].
    destruct (N.log2_spec n) as [_ Hlog]; [lia |].
    eapply N.lt_le_trans; [exact Hlog |].
    apply N.pow_le_mono_l. lia.
  - exists k. split_and!; [done.. |].
    by rewrite H3, append_nil_r.
Qed.

(** Within its width, ['%0wd'] prints exactly [w] digits. *)
Lemma fmt_0d_digits (w : nat) (n : N) :
  (0 < w)%nat -> n < 10 ^ N.of_nat w -> Py.fmt_0d w n = Py.digits w n.
Proof.
  intros Hw Hn. unfold Py.fmt_0d.
  destruct (decimal_digits n) as (k & Hlt & Hmin & ->).
  rewrite length_digits.
  assert (S k <= w)%nat as Hk.
  { destruct Hmin as [->|Hmin]; [lia |].
    destruct (Nat.le_gt_cases (S k) w) as [|Hgt]; [done | exfalso].
    pose proof (pow10_le w k ltac:(lia)). lia. }
  rewrite <- digits_zeros by done.
  f_equal. lia.
Qed.

End Digits.

(** ** [int()] reads back what [str()] prints *)

Section IntOfDecimal.

Lemma mod_pow10_succ (k : nat) (n : N) :
  (n mod 10 ^ N.of_nat (S k)
   = n mod 10 ^ N.of_nat k + 10 ^ N.of_nat k * ((n / 10 ^ N.of_nat k) mod 10))%N.
Proof. by rewrite pow10_succ, (N.mul_comm 10), N.Div0.mod_mul_r. Qed.

Lemma scan_digits_digits (k : nat) : forall (n : N) (rest : string) (seen : bool) (acc : Z),
  Py.scan_digits (Py.digits k n ++ rest) false seen acc
  = Py.scan_digits rest false (seen || negb (Nat.eqb k 0))
      (acc * 10 ^ Z.of_nat k + Z.of_N (n mod 10 ^ N.of_nat k)).
Proof.
  induction k as [|k IH]; intros n rest seen acc.
  - rewrite append_nil, orb_false_r. f_equal.
    change (10 ^ N.of_nat 0)%N with 1%N. rewrite N.mod_1_r. simpl. lia.
  - cbn [Py.digits]. rewrite append_cons. cbn [Py.scan_digits].
    pose proof (N.mod_lt (n / 10 ^ N.of_nat k) 10 ltac:(discriminate)) as Hd.
    rewrite isdigit_digit_char, digit_value_digit_char by done.
    rewrite IH, mod_pow10_succ. cbn [Nat.eqb negb]. rewrite !orb_true_r.
    f_equal.
    rewrite Nat2Z.inj_succ, Z.pow_succ_r by lia.
    rewrite N2Z.inj_add, N2Z.inj_mul, N2Z.inj_pow, nat_N_Z.
    change (Z.of_N 10) with 10. ring.
Qed.

Lemma parse_int_digit_first (c : ascii) (s : string) :
  Py.isdigit c = true ->
  Py.parse_int (String c s)
  = match Py.scan_digits (String c s) false false 0 with
    | Some (v, true, rest) =>
        match Py.skip_spaces rest with
        | EmptyString => Some v
        | String _ _ => None
        end
    | _ => None
    end.
Proof.
  intros Hc.
  assert (Py.parse_int (String c s)
          = match Py.scan_digits (String c s) false false 0 with
            | Some (v, true, rest) =>
                match Py.skip_spaces rest with
                | EmptyString => Some (1 * v)
                | String _ _ => None
                end
            | _ => None
            end) as ->.
  { destruct c as [[] [] [] [] [] [] [] []]; try discriminate Hc; reflexivity. }
  destruct (Py.scan_digits (String c s) false false 0) as [[[v []] rest]|]; try done.
  destruct (Py.skip_spaces rest); [|done]. by rewrite Z.mul_1_l.
Qed.

Lemma parse_int_decimal (n : N) : Py.parse_int (Py.decimal n) = Some (Z.of_N n).
Proof.
  destruct (decimal_digits n) as (k & Hlt & _ & ->).
  rewrite <- (append_nil_r (Py.digits (S k) n)).
  pose proof (scan_digits_digits (S k) n "" false 0) as Hscan.
  cbn [Py.digits] in *. rewrite append_cons in *.
  rewrite parse_int_digit_first
    by (apply isdigit_digit_char, N.mod_lt; discriminate).
  rewrite Hscan. cbn. rewrite N.mod_small by done. done.
Qed.

End IntOfDecimal.

(** ** The order of ISO-8601 texts *)

Section IsoOrder.

Local Open Scope N_scope.

Lemma lex_Eq_r (c : comparison) : datetime.lex c Eq = c.
Proof. by destruct c. Qed.

Lemma compare_add_l (p n m : N) : (p + n ?= p + m) = (n ?= m).
Proof.
  destruct (N.compare_spec n m) as [->|H|H].
  - apply N.compare_refl.
  - apply N.compare_lt_iff. lia.
  - apply N.compare_gt_iff. lia.
Qed.

Lemma compare_split (P qa ra qb rb : N) :
  ra < P -> rb < P ->
  (ra + P * qa ?= rb + P * qb) = datetime.lex (qa ?= qb) (ra ?= rb).
Proof.
  intros Ha Hb.
  destruct (N.compare_spec qa qb) as [->|Hq|Hq]; cbn [datetime.lex].
  - by rewrite (N.add_comm ra), (N.add_comm rb), compare_add_l.
  - apply N.compare_lt_iff. nia.
  - apply N.compare_gt_iff. nia.
Qed.

Lemma compare_cons_same (c : ascii) (s1 s2 : string) :
  String.compare (String c s1) (String c s2) = String.compare s1 s2.
Proof.
  cbn [String.compare]. unfold Ascii.compare. by rewrite N.compare_refl.
Qed.

(** Texts that start with [w] digits compare as the numbers printed, then
    as the rest. *)
Lemma compare_digits (w : nat) : forall (a b : N) (r1 r2 : string),
  String.compare (Py.digits w a ++ r1) (Py.digits w b ++ r2)
  = datetime.lex (a mod 10 ^ N.of_nat w ?= b mod 10 ^ N.of_nat w)
      (String.compare r1 r2).
Proof.
  induction w as [|w IH]; intros a b r1 r2.
  - change (10 ^ N.of_nat 0) with 1. by rewrite !N.mod_1_r, !append_nil.
  - cbn [Py.digits]. rewrite !append_cons. cbn [String.compare].
    pose proof (N.mod_lt (a / 10 ^ N.of_nat w) 10 ltac:(discriminate)) as Hda.
    pose proof (N.mod_lt (b / 10 ^ N.of_nat w) 10 ltac:(discriminate)) as Hdb.
    unfold Ascii.compare.
    fold (Py.ord (Py.digit_char ((a / 10 ^ N.of_nat w) mod 10))).
    fold (Py.ord (Py.digit_char ((b / 10 ^ N.of_nat w) mod 10))).
    rewrite !ord_digit_char, compare_add_l, IH by done.
    rewrite !mod_pow10_succ, compare_split
      by (apply N.mod_lt, N.pow_nonzero; discriminate).
    by destruct (_ mod 10 ?= _ mod 10).
Qed.

Lemma compare_fmt_0d (w : nat) (a b : N) (r1 r2 : string) :
  (0 < w)%nat -> a < 10 ^ N.of_nat w -> b < 10 ^ N.of_nat w ->
  String.compare (Py.fmt_0d w a ++ r1) (Py.fmt_0d w b ++ r2)
  = datetime.lex (a ?= b) (String.compare r1 r2).
Proof.
  intros Hw Ha Hb. rewrite !fmt_0d_digits, compare_digits by done.
  by rewrite !N.mod_small.
Qed.

Lemma valid_bounds (d : datetime.t) :
  datetime.valid d = true ->
  datetime.year d < 10 ^ N.of_nat 4 /\ datetime.month d < 10 ^ N.of_nat 2
  /\ datetime.day d < 10 ^ N.of_nat 2 /\ datetime.hour d < 10 ^ N.of_nat 2
  /\ datetime.minute d < 10 ^ N.of_nat 2 /\ datetime.second d < 10 ^ N.of_nat 2
  /\ datetime.microsecond d < 10 ^ N.of_nat 6.
Proof.
  unfold datetime.valid. rewrite !andb_true_iff.
  rewrite !N.leb_le, !N.ltb_lt.
  intros (((((((((_ & Hy) & _) & Hm) & _) & Hd) & Hh) & Hmi) & Hs) & Hus).
  assert (datetime.days_in_month (datetime.year d) (datetime.month d) <= 31).
  { unfold datetime.days_in_month.
    repeat (match goal with |- context [match ?x with _ => _ end] => destruct x end;
            try done). }
  change (10 ^ N.of_nat 4) with 10000. change (10 ^ N.of_nat 2) with 100.
  change (10 ^ N.of_nat 6) with 1000000. lia.
Qed.

(** The texts of two valid datetimes compare as the datetimes do. *)
Lemma compare_isoformat (d1 d2 : datetime.t) :
  datetime.valid d1 = true -> datetime.valid d2 = true ->
  String.compare (datetime.isoformat d1) (datetime.isoformat d2)
  = datetime.compare d1 d2.
Proof.
  intros (Hy1 & Hm1 & Hd1 & Hh1 & Hmi1 & Hs1 & Hu1)%valid_bounds
         (Hy2 & Hm2 & Hd2 & Hh2 & Hmi2 & Hs2 & Hu2)%valid_bounds.
  unfold datetime.isoformat, datetime.compare.
  repeat (rewrite compare_fmt_0d by (done || lia);
          rewrite ?append_cons, ?append_nil, ?compare_cons_same).
  do 6 f_equal.
  destruct (N.eqb_spec (datetime.microsecond d1) 0) as [->|Hne1];
    destruct (N.eqb_spec (datetime.microsecond d2) 0) as [->|Hne2].
  - done.
  - symmetry. apply N.compare_lt_iff. lia.
  - symmetry. apply N.compare_gt_iff. lia.
  - rewrite compare_cons_same.
    rewrite <- (append_nil_r (Py.fmt_0d 6 (datetime.microsecond d1))).
    rewrite <- (append_nil_r (Py.fmt_0d 6 (datetime.microsecond d2))).
    rewrite compare_fmt_0d by (done || lia). apply lex_Eq_r.
Qed.

End IsoOrder.

(** ** Literals without a digit *)

Section NoDigit.

Lemma scan_digits_no_digit (s : string) : forall (p seen : bool) (acc : Z),
  has_digit s = false ->
  match Py.scan_digits s p seen acc with
  | Some (_, seen', _) => seen' = seen
  | None => True
  end.
Proof.
  induction s as [|c s IH]; intros p seen acc H; cbn [Py.scan_digits].
  - by destruct p.
  - cbn [has_digit] in H. apply orb_false_iff in H as [-> H].
    destruct (Ascii.eqb c Py.underscore), p; try done. by apply IH.
Qed.

Lemma has_digit_skip_spaces (s : string) :
  has_digit s = false -> has_digit (Py.skip_spaces s) = false.
Proof.
  induction s as [|c s IH]; [done |].
  intros H. cbn [Py.skip_spaces]. destruct (Py.isspace c); [|done].
  cbn [has_digit] in H. apply orb_false_iff in H as [_ H]. by apply IH.
Qed.

(** [int()] rejects every text without a decimal digit. *)
Lemma parse_int_no_digit (s : string) :
  has_digit s = false -> Py.parse_int s = None.
Proof.
  intros H%has_digit_skip_spaces. unfold Py.parse_int.
  destruct (Py.skip_spaces s) as [|c r].
  - reflexivity.
  - assert (has_digit r = false) as Hr.
    { cbn [has_digit] in H. by apply orb_false_iff in H as [_ H]. }
    destruct (Ascii.eqb c "+"); [|destruct (Ascii.eqb c "-")];
      destruct (Py.starts_with_underscore _); try done.
    + pose proof (scan_digits_no_digit r false false 0 Hr) as Hs.
      destruct (Py.scan_digits r false false 0) as [[[v seen] rest]|]; [|done].
      by rewrite Hs.
    + pose proof (scan_digits_no_digit r false false 0 Hr) as Hs.
      destruct (Py.scan_digits r false false 0) as [[[v seen] rest]|]; [|done].
      by rewrite Hs.
    + pose proof (scan_digits_no_digit (String c r) false false 0 H) as Hs.
      destruct (Py.scan_digits (String c r) false false 0) as [[[v seen] rest]|]; [|done].
      by rewrite Hs.
Qed.

End NoDigit.

(** ** The shape of [isoformat()] *)

Section IsoShape.

Lemma isdigit_digit (n k : N) : Py.isdigit (Py.digit_char ((n / k) mod 10)) = true.
Proof. apply isdigit_digit_char, N.mod_lt. discriminate. Qed.

Lemma isoformat_shape (d : datetime.t) :
  datetime.valid d = true -> iso8601 (datetime.isoformat d) = true.
Proof.
  intros (Hy & Hm & Hd & Hh & Hmi & Hs & Hu)%valid_bounds.
  unfold iso8601, datetime.isoformat.
  rewrite !fmt_0d_digits by (done || lia).
  destruct (N.eqb_spec (datetime.microsecond d) 0) as [_|_].
  - apply orb_true_iff. left.
    cbn [Py.digits]. rewrite ?append_cons, ?append_nil.
    cbn [has_shape Ascii.eqb Bool.eqb]. by rewrite !isdigit_digit.
  - apply orb_true_iff. right.
    cbn [Py.digits]. rewrite ?append_cons, ?append_nil.
    cbn [has_shape Ascii.eqb Bool.eqb]. by rewrite !isdigit_digit.
Qed.

End IsoShape.

(** ** Dispatch *)

Section Dispatch.

Lemma serve_all_state (a : Flask) (st : AppState) (history : list (World * Request)) :
  fst (serve_all a st history) = st.
Proof.
  induction history as [|[w req] rest IH]; [done |].
  cbn [serve_all serve]. destruct (serve_all a st rest) as [st2 rvs]. exact IH.
Qed.

(** No request leaves anything behind for the next one. *)
Lemma response_after_dispatch (a : Flask) (st : AppState)
  (history : list (World * Request)) (w : World) (req : Request) :
  response_after a st history w req = flask.respond a w req.
Proof. reflexivity. Qed.

Lemma merge_slashes_id (s : string) :
  has_double_slash s = false -> flask.merge_slashes s = s.
Proof.
  induction s as [|c s IH]; [done |].
  cbn [has_double_slash flask.merge_slashes]. destruct s as [|c' s']; [done |].
  intros [-> H]%orb_false_iff. f_equal. by apply IH.
Qed.

Lemma drop_prefix_prefix (a p r : string) :
  flask.drop_prefix a p = Some r -> String.prefix a p = true.
Proof.
  revert p. induction a as [|x a IH]; intros [|y p]; cbn; try done.
  destruct (Ascii.eqb_spec x y) as [->|]; [|done].
  destruct (ascii_dec y y); [apply IH | done].
Qed.

Lemma static_filename_under (p f : string) :
  flask.static_filename app p = Some f -> under_static p = true.
Proof.
  unfold flask.static_filename, under_static. cbn [static_url_path app].
  change ("/static" ++ "/") with "/static/".
  destruct (flask.drop_prefix "/static/" p) as [r|] eqn:H; [|done].
  intros _. by apply (drop_prefix_prefix _ _ r).
Qed.

(** One pass of the matcher over a path that none of the three rules has. *)
Lemma match_pass_unrouted (m : http_method) (p : string) :
  p <> "/health" -> p <> "/api/info" -> p <> "/api/hello" ->
  flask.match_pass app m p
  = match flask.static_filename app p with
    | Some filename =>
        if bool_decide (m ∈ flask.static_methods)
        then (Some (flask.StaticFile filename), false)
        else (None, true)
    | None => (None, false)
    end.
Proof.
  intros H1 H2 H3. unfold flask.match_pass.
  cbn [url_map app List.filter]. unfold flask.path_matches. cbn [rule].
  destruct (String.eqb_spec "/health" p) as [E|_]; [by destruct H1 |].
  destruct (String.eqb_spec "/api/info" p) as [E|_]; [by destruct H2 |].
  destruct (String.eqb_spec "/api/hello" p) as [E|_]; [by destruct H3 |].
  reflexivity.
Qed.

Lemma respond_unmatched (w : World) (req : Request) :
  path req <> "/health" -> path req <> "/api/info" -> path req <> "/api/hello" ->
  has_double_slash (path req) = false ->
  under_static (path req) = false \/ method req = GET \/ method req = HEAD ->
  flask.respond app w req = not_found NotFound w req.
Proof.
  intros H1 H2 H3 Hs Hm.
  unfold flask.respond, flask.wsgi_app, flask.full_dispatch_request,
    flask.dispatch_request, flask.match_request.
  rewrite merge_slashes_id, match_pass_unrouted by done.
  destruct (flask.static_filename app (path req)) as [f|] eqn:Hf; [|reflexivity].
  destruct Hm as [Hu | [-> | ->]].
  - apply static_filename_under in Hf. congruence.
  - reflexivity.
  - reflexivity.
Qed.

Lemma respond_view (w : World) (req : Request) (rv : Response) :
  flask.dispatch_request app w req = Ok rv -> flask.respond app w req = rv.
Proof.
  intros H. unfold flask.respond, flask.wsgi_app, flask.full_dispatch_request.
  by rewrite H.
Qed.

Lemma dispatch_get_health (w : World) (req : Request) :
  method req = GET -> path req = "/health" ->
  flask.dispatch_request app w req = health w req.
Proof. destruct req as [m p a]; cbn [method path]; intros -> ->. reflexivity. Qed.

Lemma dispatch_get_info (w : World) (req : Request) :
  method req = GET -> path req = "/api/info" ->
  flask.dispatch_request app w req = info w req.
Proof. destruct req as [m p a]; cbn [method path]; intros -> ->. reflexivity. Qed.

Lemma dispatch_get_hello (w : World) (req : Request) :
  method req = GET -> path req = "/api/hello" ->
  flask.dispatch_request app w req = hello w req.
Proof. destruct req as [m p a]; cbn [method path]; intros -> ->. reflexivity. Qed.

Lemma dispatch_world_independent (w1 w2 : World) (req : Request) :
  path req = "/api/info" \/ path req = "/api/hello" ->
  flask.respond app w1 req = flask.respond app w2 req.
Proof.
  destruct req as [m p a]; cbn [path]. intros [-> | ->]; by destruct m.
Qed.

Lemma args_get_getlist (a : list (string * string)) (key default : string) :
  args_get a key default = List.hd default (getlist a key).
Proof.
  induction a as [|[k v] a IH]; [done |].
  unfold getlist in *. cbn [args_get List.filter fst].
  by destruct (String.eqb k key).
Qed.

End Dispatch.

(** ** Reading [isoformat()] back *)

Section IsoRead.

Lemma read_digits_digits (k : nat) : forall (n : N) (rest : string) (acc : N),
  read_digits k (Py.digits k n ++ rest) acc
  = Some ((acc * 10 ^ N.of_nat k + n mod 10 ^ N.of_nat k)%N, rest).
Proof.
  induction k as [|k IH]; intros n rest acc.
  - rewrite append_nil. cbn [read_digits]. do 2 f_equal.
    change (10 ^ N.of_nat 0)%N with 1%N. rewrite N.mod_1_r. lia.
  - cbn [Py.digits]. rewrite append_cons. cbn [read_digits].
    pose proof (N.mod_lt (n / 10 ^ N.of_nat k) 10 ltac:(discriminate)) as Hd.
    rewrite isdigit_digit_char, ord_digit_char by done.
    rewrite IH, mod_pow10_succ, pow10_succ. do 2 f_equal.
    rewrite (N.add_comm 48), N.add_sub. ring.
Qed.

Lemma read_fmt_0d (w : nat) (n : N) (rest : string) :
  (0 < w)%nat -> (n < 10 ^ N.of_nat w)%N ->
  read_digits w (Py.fmt_0d w n ++ rest) 0 = Some (n, rest).
Proof.
  intros Hw Hn. rewrite fmt_0d_digits, read_digits_digits by done.
  by rewrite N.mod_small.
Qed.

(** The text of a valid datetime reads back as that datetime. *)
Lemma read_isoformat (d : datetime.t) :
  datetime.valid d = true -> read_iso8601 (datetime.isoformat d) = Some d.
Proof.
  intros (Hy & Hm & Hd & Hh & Hmi & Hs & Hu)%valid_bounds.
  unfold read_iso8601, datetime.isoformat.
  repeat (rewrite read_fmt_0d by (done || lia); cbn [mbind option_bind];
          rewrite ?append_cons, ?append_nil; cbn [read_mark];
          rewrite ?Ascii.eqb_refl; cbn [mbind option_bind]).
  destruct d as [y mo dd h mi sec us]; cbn [datetime.microsecond] in *.
  destruct (N.eqb_spec us 0) as [->|Hne].
  - reflexivity.
  - cbn [read_mark]. rewrite Ascii.eqb_refl. cbn [mbind option_bind].
    rewrite <- (append_nil_r (Py.fmt_0d 6 us)).
    rewrite read_fmt_0d by (done || lia). reflexivity.
Qed.

End IsoRead.

(** * The claims *)

(** ** C1: the listening port *)

(** C1, as the code has it.  When [PORT] is unset the port is 3000.  When
    [PORT] is set the port is what [int()] reads from it: an ASCII value
    without any decimal digit (a non-numeric one) raises [ValueError] and the
    start-up fails, and the decimal form of a port number resolves to that
    number. *)
Theorem PORT_resolution (environ : gmap string string) :
  (environ !! "PORT" = None -> PORT environ = Ok 3000)
  /\ (forall s : string,
        environ !! "PORT" = Some s -> isascii s = true -> has_digit s = false ->
        PORT environ = Raise (InvalidLiteral s))
  /\ (forall n : N,
        (n <= 65535)%N -> environ !! "PORT" = Some (Py.decimal n) ->
        PORT environ = Ok (Z.of_N n)).
Proof.
  unfold PORT, environ_get. split_and!.
  - by intros ->.
  - intros s -> _ Hs. cbn [Py.int]. by rewrite parse_int_no_digit.
  - intros n _ ->. cbn [Py.int]. by rewrite parse_int_decimal.
Qed.

Lemma PORT_resolution_witness :
  PORT ∅ = Ok 3000
  /\ PORT {[ "PORT" := "n/a" ]} = Raise (InvalidLiteral "n/a")
  /\ PORT {[ "PORT" := "8080" ]} = Ok 8080.
Proof.
  split; [|split].
  - apply (PORT_resolution ∅). reflexivity.
  - apply (PORT_resolution {[ "PORT" := "n/a" ]}); reflexivity.
  - apply (proj2 (proj2 (PORT_resolution {[ "PORT" := "8080" ]})) 8080%N);
      [lia | reflexivity].
Defined.

(** C1 as stated fails: with [PORT=abc], a value that is not numeric, the
    resolution raises [ValueError] and no port, 3000 or other, comes out. *)
Lemma PORT_non_numeric_raises :
  isascii "abc" = true /\ has_digit "abc" = false
  /\ PORT {[ "PORT" := "abc" ]} = Raise (InvalidLiteral "abc")
  /\ PORT {[ "PORT" := "abc" ]} <> Ok 3000.
Proof. split_and!; [reflexivity | reflexivity | reflexivity | discriminate]. Qed.

(** ** C2: paths without a route *)

(** C2, as the code has it.  For every request whose path is none of
    [/health], [/api/info] and [/api/hello] and holds no doubled slash, the
    not-found handler gives the response (status 404, [error] is
    ["Not Found"], [path] is the requested path) when the path does not lie
    under [/static/], whatever the method, and also when it does and the
    method is GET or HEAD. *)
Theorem unmatched_path_not_found (st : AppState)
  (history : list (World * Request)) (w : World) (req : Request) :
  path req <> "/health" -> path req <> "/api/info" -> path req <> "/api/hello" ->
  has_double_slash (path req) = false ->
  under_static (path req) = false \/ method req = GET \/ method req = HEAD ->
  let r := response_after app st history w req in
  r = not_found NotFound w req
  /\ status_code r = 404
  /\ json_field r "error" = Some (JStr "Not Found")
  /\ json_field r "path" = Some (JStr (path req)).
Proof.
  intros H1 H2 H3 Hs Hm r. subst r.
  rewrite response_after_dispatch, respond_unmatched by done.
  split_and!; reflexivity.
Qed.

Lemma unmatched_path_not_found_witness :
  let req := {| method := POST; path := "/unknown"; args := [] |} in
  let r := response_after app Sample.st [] Sample.plain req in
  status_code r = 404
  /\ json_field r "error" = Some (JStr "Not Found")
  /\ json_field r "path" = Some (JStr "/unknown").
Proof.
  intros req r.
  apply (unmatched_path_not_found Sample.st [] Sample.plain req);
    try discriminate; [reflexivity | by left].
Defined.

(** C2 as stated fails.  [/static/x.txt] is none of the three paths, and a
    POST to it is answered with status 405 and the framework's error page,
    since the rule that [Flask(__name__)] adds for static files has the path
    but not the method.  [/api//info] is none of the three paths either, and a
    GET of it is answered with status 308 and the way to [/api/info]. *)
Lemma unrouted_paths_405_308 :
  let req := {| method := POST; path := "/static/x.txt"; args := [] |} in
  let r := response_after app Sample.st [] Sample.plain req in
  let req' := Sample.get "/api//info" [] in
  let r' := response_after app Sample.st [] Sample.plain req' in
  path req <> "/health" /\ path req <> "/api/info" /\ path req <> "/api/hello"
  /\ status_code r = 405 /\ body r = ErrorPage 405
  /\ status_code r <> 404 /\ json_field r "error" = None
  /\ path req' <> "/health" /\ path req' <> "/api/info" /\ path req' <> "/api/hello"
  /\ status_code r' = 308 /\ body r' = RedirectPage "/api/info"
  /\ status_code r' <> 404 /\ json_field r' "error" = None.
Proof. split_and!; try discriminate; reflexivity. Qed.

(** ** C3: faults *)




(** ** C4 and C9: the greeting *)

(** C4.  For every GET request to [/api/hello] the status is 200; when the
    query supplies [name] with the value [X], any text at all, the body is
    exactly [{message: "Hello, X!"}], and when it supplies no [name] the body
    is exactly [{message: "Hello, World!"}]. *)
Theorem hello_greets (st : AppState) (history : list (World * Request))
  (w : World) (req : Request) :
  method req = GET -> path req = "/api/hello" ->
  let r := response_after app st history w req in
  status_code r = 200
  /\ (forall X : string,
        getlist (args req) "name" = [X] ->
        body r = JsonBody {[ "message" := JStr ("Hello, " ++ X ++ "!") ]})
  /\ (getlist (args req) "name" = [] ->
      body r = JsonBody {[ "message" := JStr "Hello, World!" ]}).
Proof.
  intros Hm Hp r. subst r. rewrite response_after_dispatch.
  unfold flask.respond, flask.wsgi_app, flask.full_dispatch_request. rewrite dispatch_get_hello by done.
  unfold hello, jsonify. cbn [status_code body]. rewrite args_get_getlist.
  split_and!; [done | by intros X -> | by intros ->].
Qed.

Lemma hello_greets_witness :
  body (response_after app Sample.st [] Sample.plain
          (Sample.get "/api/hello" [("name", "CI/CD")]))
  = JsonBody {[ "message" := JStr "Hello, CI/CD!" ]}
  /\ body (response_after app Sample.st [] Sample.plain
             (Sample.get "/api/hello" [("name", "")]))
     = JsonBody {[ "message" := JStr "Hello, !" ]}
  /\ body (response_after app Sample.st [] Sample.plain
             (Sample.get "/api/hello" [("page", "2")]))
     = JsonBody {[ "message" := JStr "Hello, World!" ]}.
Proof.
  split; [|split].
  - destruct (hello_greets Sample.st [] Sample.plain
                (Sample.get "/api/hello" [("name", "CI/CD")]) eq_refl eq_refl)
      as (_ & Hname & _).
    apply (Hname "CI/CD"). reflexivity.
  - destruct (hello_greets Sample.st [] Sample.plain
                (Sample.get "/api/hello" [("name", "")]) eq_refl eq_refl)
      as (_ & Hname & _).
    apply (Hname ""). reflexivity.
  - destruct (hello_greets Sample.st [] Sample.plain
                (Sample.get "/api/hello" [("page", "2")]) eq_refl eq_refl)
      as (_ & _ & Habsent).
    apply Habsent. reflexivity.
Defined.

(** C9.  For every GET request to [/api/hello] whose query supplies [name] more
    than once, the message is built from the first value supplied; the later
    ones play no part. *)
Theorem hello_first_name_wins (st : AppState) (history : list (World * Request))
  (w : World) (req : Request) (X Y : string) (more : list string) :
  method req = GET -> path req = "/api/hello" ->
  getlist (args req) "name" = X :: Y :: more ->
  let r := response_after app st history w req in
  status_code r = 200
  /\ body r = JsonBody {[ "message" := JStr ("Hello, " ++ X ++ "!") ]}.
Proof.
  intros Hm Hp Hl r. subst r. rewrite response_after_dispatch.
  unfold flask.respond, flask.wsgi_app, flask.full_dispatch_request. rewrite dispatch_get_hello by done.
  unfold hello, jsonify. cbn [status_code body].
  by rewrite args_get_getlist, Hl.
Qed.

Lemma hello_first_name_wins_witness :
  let req := Sample.get "/api/hello" [("name", "Ada"); ("lang", "en"); ("name", "Bob")] in
  getlist (args req) "name" = ["Ada"; "Bob"]
  /\ body (response_after app Sample.st [] Sample.plain req)
     = JsonBody {[ "message" := JStr "Hello, Ada!" ]}.
Proof.
  intros req. split; [reflexivity |].
  destruct (hello_first_name_wins Sample.st [] Sample.plain req "Ada" "Bob" []
              eq_refl eq_refl eq_refl) as [_ Hbody].
  exact Hbody.
Defined.

(** ** C5: the information endpoint *)

(** C5.  For every GET request to [/api/info] the status is 200 and the body
    is exactly the static object: [name] is ["Simple Python Example"],
    [version] is ["1.0.0"], and [description] and [language] are texts that
    are not empty.  The response is the same whatever the state, the earlier
    requests and the world of the call. *)
Theorem info_static (st : AppState) (history : list (World * Request))
  (w : World) (req : Request) :
  method req = GET -> path req = "/api/info" ->
  let r := response_after app st history w req in
  status_code r = 200
  /\ (exists description language : string,
        description <> "" /\ language <> ""
        /\ body r = JsonBody {[ "name" := JStr "Simple Python Example";
                                "version" := JStr "1.0.0";
                                "description" := JStr description;
                                "language" := JStr language ]})
  /\ (forall (st' : AppState) (history' : list (World * Request)) (w' : World),
        response_after app st' history' w' req = r).
Proof.
  intros Hm Hp r. subst r. rewrite response_after_dispatch.
  unfold flask.respond, flask.wsgi_app, flask.full_dispatch_request. rewrite dispatch_get_info by done.
  split_and!.
  - reflexivity.
  - exists "Example project for CI/CD Toolkit", "Python".
    split_and!; [discriminate | discriminate | reflexivity].
  - intros st' history' w'. rewrite response_after_dispatch.
    unfold flask.respond, flask.wsgi_app, flask.full_dispatch_request. by rewrite dispatch_get_info.
Qed.

Lemma info_static_witness :
  let req := Sample.get "/api/info" [] in
  status_code (response_after app Sample.st [] Sample.plain req) = 200
  /\ response_after app Sample.st' [(Sample.plain, req)] Sample.later req
     = response_after app Sample.st [] Sample.plain req.
Proof.
  intros req.
  destruct (info_static Sample.st [] Sample.plain req eq_refl eq_refl)
    as (Hcode & _ & Hsame).
  split; [exact Hcode |].
  exact (Hsame Sample.st' [(Sample.plain, req)] Sample.later).
Defined.

(** ** C6: the health check *)

(** C6.  For every GET request to [/health] the handler returns, with status
    200 and a body in which [status] is ["OK"], [status_code] is 200 and
    [timestamp] holds the UTC clock as the call itself reads it, whatever was
    served before: the text has the ISO-8601 shape, and read back as a date and
    time it gives that very clock reading. *)
Theorem health_ok (st : AppState) (history : list (World * Request))
  (w : World) (req : Request) :
  method req = GET -> path req = "/health" ->
  datetime.valid (utcnow w) = true ->
  let r := response_after app st history w req in
  flask.dispatch_request app w req = Ok r
  /\ status_code r = 200
  /\ json_field r "status" = Some (JStr "OK")
  /\ json_field r "status_code" = Some (JInt 200)
  /\ exists t : string,
       json_field r "timestamp" = Some (JStr t)
       /\ iso8601 t = true
       /\ read_iso8601 t = Some (utcnow w).
Proof.
  intros Hm Hp Hv r. subst r. rewrite response_after_dispatch.
  rewrite (respond_view w req _ (dispatch_get_health w req Hm Hp)).
  split_and!; [by apply dispatch_get_health | reflexivity.. |].
  exists (datetime.isoformat (utcnow w)).
  split_and!; [reflexivity | by apply isoformat_shape | by apply read_isoformat].
Qed.

Lemma health_ok_witness :
  let req := Sample.get "/health" [] in
  let r := response_after app Sample.st [(Sample.plain, req)] Sample.later req in
  status_code r = 200
  /\ exists t : string,
       json_field r "timestamp" = Some (JStr t)
       /\ iso8601 t = true
       /\ read_iso8601 t = Some (datetime.mk 2024 2 29 12 0 0 250000).
Proof.
  intros req r.
  destruct (health_ok Sample.st [(Sample.plain, req)] Sample.later req
              eq_refl eq_refl eq_refl) as (_ & Hcode & _ & _ & Hts).
  split; [exact Hcode | exact Hts].
Defined.

(** ** C7: repeated requests *)

(** C7.  A request to [/api/info] or to [/api/hello], made again after any
    further requests and in any world, gets the same body as the first time.
    For two calls to [/health], the later one made when the UTC clock reads no
    less than at the earlier one, the later timestamp is not smaller than the
    earlier, the texts being compared as Python compares strings. *)
Theorem repeated_requests (st : AppState)
  (before between : list (World * Request)) (w1 w2 : World) (req : Request) :
  method req = GET ->
  let r1 := response_after app st before w1 req in
  let r2 := response_after app st (before ++ (w1, req) :: between) w2 req in
  (path req = "/api/info" \/ path req = "/api/hello" -> body r1 = body r2)
  /\ (path req = "/health" ->
      datetime.valid (utcnow w1) = true -> datetime.valid (utcnow w2) = true ->
      datetime.le (utcnow w1) (utcnow w2) ->
      exists t1 t2 : string,
        json_field r1 "timestamp" = Some (JStr t1)
        /\ json_field r2 "timestamp" = Some (JStr t2)
        /\ String.leb t1 t2 = true).
Proof.
  intros Hm r1 r2. subst r1 r2. rewrite !response_after_dispatch. split.
  - intros Hp. by rewrite (dispatch_world_independent w1 w2).
  - intros Hp Hv1 Hv2 Hle.
    exists (datetime.isoformat (utcnow w1)), (datetime.isoformat (utcnow w2)).
    unfold flask.respond, flask.wsgi_app, flask.full_dispatch_request. rewrite !dispatch_get_health by done.
    split_and!; [reflexivity | reflexivity |].
    unfold String.leb. rewrite compare_isoformat by done.
    unfold datetime.le in Hle. by destruct (datetime.compare _ _).
Qed.

Lemma repeated_requests_witness :
  let hello_req := Sample.get "/api/hello" [("name", "Ada")] in
  let health_req := Sample.get "/health" [] in
  body (response_after app Sample.st [] Sample.plain hello_req)
  = body (response_after app Sample.st
            [(Sample.plain, hello_req); (Sample.later, health_req)]
            Sample.later hello_req)
  /\ datetime.le (utcnow Sample.plain) (utcnow Sample.later)
  /\ exists t1 t2 : string,
       json_field (response_after app Sample.st [] Sample.plain health_req)
         "timestamp" = Some (JStr t1)
       /\ json_field (response_after app Sample.st [(Sample.plain, health_req)]
                        Sample.later health_req)
            "timestamp" = Some (JStr t2)
       /\ String.leb t1 t2 = true.
Proof.
  intros hello_req health_req. split; [|split].
  - apply (repeated_requests Sample.st [] [(Sample.later, health_req)]
             Sample.plain Sample.later hello_req eq_refl).
    right. reflexivity.
  - discriminate.
  - apply (repeated_requests Sample.st [] [] Sample.plain Sample.later
             health_req eq_refl);
      [reflexivity | reflexivity | reflexivity | discriminate].
Defined.

(** C7 as stated fails for [/health]: [utcnow()] reads the wall clock, and
    when that clock has stepped back between two calls the later response
    carries the smaller timestamp. *)
Lemma later_timestamp_smaller :
  let req := Sample.get "/health" [] in
  let r1 := response_after app Sample.st [] Sample.later req in
  let r2 := response_after app Sample.st [(Sample.later, req)] Sample.plain req in
  json_field r1 "timestamp" = Some (JStr "2024-02-29T12:00:00.250000")
  /\ json_field r2 "timestamp" = Some (JStr "2024-02-29T12:00:00")
  /\ String.leb "2024-02-29T12:00:00.250000" "2024-02-29T12:00:00" = false
  /\ String.ltb "2024-02-29T12:00:00" "2024-02-29T12:00:00.250000" = true.
Proof. split_and!; reflexivity. Qed.

(** ** C8: bodies and status codes *)




(** ** C10: determinism of the information and greeting handlers *)

(** C10.  The [info] and [hello] handlers are functions of the request alone:
    in any two worlds (environments and clocks), from any two states of the
    module and after any two histories of requests, the same request gets the
    same body and status code. *)
Theorem info_hello_deterministic (st1 st2 : AppState)
  (history1 history2 : list (World * Request)) (w1 w2 : World) (req : Request) :
  info w1 req = info w2 req
  /\ hello w1 req = hello w2 req
  /\ (path req = "/api/info" \/ path req = "/api/hello" ->
      response_after app st1 history1 w1 req
      = response_after app st2 history2 w2 req).
Proof.
  split_and!; [reflexivity | reflexivity |].
  intros Hp. rewrite !response_after_dispatch.
  by apply dispatch_world_independent.
Qed.

Lemma info_hello_deterministic_witness :
  let req := Sample.get "/api/hello" [("name", "Ada")] in
  response_after app Sample.st [] Sample.plain req
  = response_after app Sample.st' [(Sample.debug_empty, Sample.get "/health" [])]
      Sample.later req.
Proof.
  intros req.
  apply (info_hello_deterministic Sample.st Sample.st' []
           [(Sample.debug_empty, Sample.get "/health" [])]
           Sample.plain Sample.later req).
  right. reflexivity.
Defined.

(** * Further properties of the code *)

(** ** Characters and white space *)

Section Characters.

Lemma isdigit_not_special (c : ascii) :
  Py.isdigit c = true ->
  Py.isspace c = false /\ Ascii.eqb c Py.underscore = false
  /\ Ascii.eqb c "+" = false /\ Ascii.eqb c "-" = false.
Proof.
  destruct c as [[] [] [] [] [] [] [] []]; intros H; try discriminate H;
    repeat split.
Qed.

Lemma isspace_not_special (c : ascii) :
  Py.isspace c = true ->
  Py.isdigit c = false /\ Ascii.eqb c Py.underscore = false
  /\ Ascii.eqb c "+" = false /\ Ascii.eqb c "-" = false.
Proof.
  destruct c as [[] [] [] [] [] [] [] []]; intros H; try discriminate H;
    repeat split.
Qed.

Lemma skip_spaces_blank_prefix (pre s : string) :
  all_space pre = true -> Py.skip_spaces (pre ++ s) = Py.skip_spaces s.
Proof.
  induction pre as [|c pre IH]; [done |].
  cbn [all_space]. intros [Hc Hpre]%andb_true_iff.
  rewrite append_cons. cbn [Py.skip_spaces]. rewrite Hc. by apply IH.
Qed.

Lemma skip_spaces_blank (post : string) :
  all_space post = true -> Py.skip_spaces post = "".
Proof.
  intros H. rewrite <- (append_nil_r post).
  by rewrite skip_spaces_blank_prefix.
Qed.

(** The digit loop stops at white space. *)
Lemma scan_digits_blank (post : string) (seen : bool) (acc : Z) :
  all_space post = true ->
  Py.scan_digits post false seen acc = Some (acc, seen, post).
Proof.
  destruct post as [|c post]; [done |].
  cbn [all_space]. intros [Hc _]%andb_true_iff.
  destruct (isspace_not_special c Hc) as (Hd & Hu & _).
  cbn [Py.scan_digits]. by rewrite Hd, Hu.
Qed.

(** What [int()] makes of a text that starts with a digit, in terms of the
    digit loop alone. *)
Lemma parse_int_signed (sign : Z) (c : ascii) (s : string) :
  Py.isdigit c = true ->
  forall prefix : string,
    (prefix = "" /\ sign = 1) \/ (prefix = "+" /\ sign = 1)
    \/ (prefix = "-" /\ sign = -1) ->
    Py.parse_int (prefix ++ String c s)
    = match Py.scan_digits (String c s) false false 0 with
      | Some (v, true, rest) =>
          match Py.skip_spaces rest with
          | EmptyString => Some (sign * v)
          | String _ _ => None
          end
      | _ => None
      end.
Proof.
  intros Hc prefix Hprefix.
  destruct (isdigit_not_special c Hc) as (Hsp & Hu & Hplus & Hminus).
  unfold Py.parse_int.
  destruct Hprefix as [[-> ->] | [[-> ->] | [-> ->]]].
  - rewrite append_nil. cbn [Py.skip_spaces]. rewrite Hsp, Hplus, Hminus.
    cbn [Py.starts_with_underscore]. by rewrite Hu.
  - rewrite append_cons, append_nil.
    change (Py.skip_spaces (String "+" (String c s))) with (String "+"%char (String c s)).
    cbn iota. rewrite Ascii.eqb_refl.
    cbn [Py.starts_with_underscore]. by rewrite Hu.
  - rewrite append_cons, append_nil.
    change (Py.skip_spaces (String "-" (String c s))) with (String "-"%char (String c s)).
    cbn iota. assert (Ascii.eqb "-" "+" = false) as -> by reflexivity.
    rewrite Ascii.eqb_refl.
    cbn [Py.starts_with_underscore]. by rewrite Hu.
Qed.

End Characters.

(** ** More on [PORT] *)

Section PortValues.

Lemma parse_int_blank_prefix (pre s : string) :
  all_space pre = true -> Py.parse_int (pre ++ s) = Py.parse_int s.
Proof.
  intros H. unfold Py.parse_int. by rewrite skip_spaces_blank_prefix.
Qed.

(** After a digit the state of the loop before it is forgotten. *)
Lemma scan_digits_digits_S (k : nat) (n : N) (rest : string) (p seen : bool) (acc : Z) :
  Py.scan_digits (Py.digits (S k) n ++ rest) p seen acc
  = Py.scan_digits rest false true
      (acc * 10 ^ Z.of_nat (S k) + Z.of_N (n mod 10 ^ N.of_nat (S k))).
Proof.
  transitivity (Py.scan_digits (Py.digits (S k) n ++ rest) false seen acc).
  - cbn [Py.digits]. rewrite append_cons. cbn [Py.scan_digits].
    by rewrite isdigit_digit.
  - rewrite scan_digits_digits. cbn [Nat.eqb negb]. by rewrite orb_true_r.
Qed.

(** [int()] on a number in decimal, after white space and a sign, and before
    any further text: what is left to the digit loop and to the end of the
    text. *)
Lemma parse_int_number (sign : Z) (pre prefix rest : string) (n : N) :
  all_space pre = true ->
  (prefix = "" /\ sign = 1) \/ (prefix = "+" /\ sign = 1)
  \/ (prefix = "-" /\ sign = -1) ->
  Py.parse_int (pre ++ prefix ++ Py.decimal n ++ rest)
  = match Py.scan_digits rest false true (Z.of_N n) with
    | Some (v, true, rest') =>
        match Py.skip_spaces rest' with
        | EmptyString => Some (sign * v)
        | String _ _ => None
        end
    | _ => None
    end.
Proof.
  intros Hpre Hprefix. rewrite parse_int_blank_prefix by done.
  destruct (decimal_digits n) as (k & Hlt & _ & Hdec).
  rewrite Hdec.
  pose proof (scan_digits_digits_S k n rest false false 0) as Hscan.
  rewrite N.mod_small in Hscan by done.
  cbn [Py.digits] in *. rewrite append_cons in *.
  rewrite (parse_int_signed sign) by (done || apply isdigit_digit).
  rewrite Hscan. by rewrite Z.mul_0_l, Z.add_0_l.
Qed.

End PortValues.

(** X1.  [PORT] may carry white space around the number and a sign before it,
    and its value is not checked against the range of ports: the number
    written is the port, negative or above 65535 as it may be. *)
Theorem PORT_sign_and_blanks (environ : gmap string string)
  (pre post : string) (n : N) :
  all_space pre = true -> all_space post = true -> (n < 2 ^ 64)%N ->
  (environ !! "PORT" = Some (pre ++ Py.decimal n ++ post) ->
   PORT environ = Ok (Z.of_N n))
  /\ (environ !! "PORT" = Some (pre ++ "+" ++ Py.decimal n ++ post) ->
      PORT environ = Ok (Z.of_N n))
  /\ (environ !! "PORT" = Some (pre ++ "-" ++ Py.decimal n ++ post) ->
      PORT environ = Ok (- Z.of_N n)).
Proof.
  intros Hpre Hpost _. unfold PORT, environ_get.
  split_and!; intros ->; cbn [Py.int].
  - rewrite <- (append_nil (Py.decimal n ++ post)).
    rewrite (parse_int_number 1) by auto.
    rewrite scan_digits_blank, skip_spaces_blank by done. f_equal; lia.
  - rewrite (parse_int_number 1) by auto.
    rewrite scan_digits_blank, skip_spaces_blank by done. f_equal; lia.
  - rewrite (parse_int_number (-1)) by auto.
    rewrite scan_digits_blank, skip_spaces_blank by done. f_equal; lia.
Qed.

Lemma PORT_sign_and_blanks_witness :
  PORT {[ "PORT" := " 8080" ]} = Ok 8080
  /\ PORT {[ "PORT" := "+70000" ]} = Ok 70000
  /\ PORT {[ "PORT" := "-1 " ]} = Ok (-1).
Proof.
  split; [|split].
  - apply (proj1 (PORT_sign_and_blanks {[ "PORT" := " 8080" ]} " " "" 8080
                    eq_refl eq_refl eq_refl)). reflexivity.
  - apply (proj1 (proj2 (PORT_sign_and_blanks {[ "PORT" := "+70000" ]} "" "" 70000
                    eq_refl eq_refl eq_refl))). reflexivity.
  - apply (proj2 (proj2 (PORT_sign_and_blanks {[ "PORT" := "-1 " ]} "" " " 1
                    eq_refl eq_refl eq_refl))). reflexivity.
Defined.

(** X2.  A number followed by any other text makes the start-up fail: when
    [PORT] is a decimal number and then an ASCII character that is no digit,
    no underscore and no white space, as in [3000.0] or [8080/tcp], [int()]
    raises [ValueError]. *)
Theorem PORT_trailing_text (environ : gmap string string)
  (n : N) (c : ascii) (rest : string) :
  (n < 2 ^ 64)%N -> (Py.ord c < 128)%N ->
  Py.isdigit c = false -> c <> Py.underscore -> Py.isspace c = false ->
  environ !! "PORT" = Some (Py.decimal n ++ String c rest) ->
  PORT environ = Raise (InvalidLiteral (Py.decimal n ++ String c rest)).
Proof.
  intros _ _ Hd Hu Hs Henv. unfold PORT, environ_get. rewrite Henv.
  cbn [Py.int].
  rewrite <- (append_nil (Py.decimal n ++ String c rest)) at 1.
  rewrite <- (append_nil (Py.decimal n ++ String c rest)) at 1.
  rewrite (parse_int_number 1) by auto.
  cbn [Py.scan_digits]. rewrite Hd.
  destruct (Ascii.eqb_spec c Py.underscore) as [|_]; [done |].
  cbn [Py.skip_spaces]. by rewrite Hs.
Qed.

Lemma PORT_trailing_text_witness :
  PORT {[ "PORT" := "3000.0" ]} = Raise (InvalidLiteral "3000.0").
Proof.
  apply (PORT_trailing_text {[ "PORT" := "3000.0" ]} 3000 "."%char "0");
    try reflexivity. discriminate.
Defined.

Section Underscores.

Lemma scan_digits_underscore (s : string) (seen : bool) (acc : Z) :
  Py.scan_digits (String Py.underscore s) false seen acc
  = Py.scan_digits s true seen acc.
Proof. reflexivity. Qed.

Lemma scan_digits_underscore_twice (s : string) (seen : bool) (acc : Z) :
  Py.scan_digits (String Py.underscore s) true seen acc = None.
Proof. reflexivity. Qed.

Lemma parse_int_underscore_first (s : string) :
  Py.parse_int (String Py.underscore s) = None.
Proof. reflexivity. Qed.

End Underscores.

(** X3.  [int()] reads single underscores between digits as grouping marks:
    [PORT] written as a number, an underscore and three more digits, as in
    [8_080], resolves to the number with the group appended. *)
Theorem PORT_digit_groups (environ : gmap string string) (a b : N) :
  (a < 2 ^ 32)%N -> (b < 1000)%N ->
  environ !! "PORT" = Some (Py.decimal a ++ "_" ++ Py.fmt_0d 3 b) ->
  PORT environ = Ok (Z.of_N (a * 1000 + b)).
Proof.
  intros _ Hb Henv. unfold PORT, environ_get. rewrite Henv. cbn [Py.int].
  rewrite <- (append_nil (Py.decimal a ++ _)).
  rewrite <- (append_nil ("" ++ Py.decimal a ++ _)).
  rewrite (parse_int_number 1) by auto.
  rewrite fmt_0d_digits by (done || lia).
  rewrite append_cons, append_nil, scan_digits_underscore.
  rewrite <- (append_nil_r (Py.digits 3 b)), scan_digits_digits_S.
  rewrite N.mod_small by done.
  cbn [Py.scan_digits Py.skip_spaces]. f_equal.
  change (10 ^ Z.of_nat 3) with 1000. lia.
Qed.

Lemma PORT_digit_groups_witness : PORT {[ "PORT" := "8_080" ]} = Ok 8080.
Proof.
  apply (PORT_digit_groups {[ "PORT" := "8_080" ]} 8 80); reflexivity.
Defined.

(** X4.  An underscore in any other place makes the start-up fail: before the
    first digit, after the last one, or doubled, it makes [int()] raise
    [ValueError]. *)
Theorem PORT_misplaced_underscore (environ : gmap string string)
  (a : N) (t s : string) :
  (a < 2 ^ 64)%N ->
  s = "_" ++ t \/ s = Py.decimal a ++ "_" \/ s = Py.decimal a ++ "__" ++ t ->
  environ !! "PORT" = Some s ->
  PORT environ = Raise (InvalidLiteral s).
Proof.
  intros _ Hs Henv. unfold PORT, environ_get. rewrite Henv. cbn [Py.int].
  assert (Py.parse_int s = None) as ->; [|done].
  destruct Hs as [-> | [-> | ->]].
  - apply parse_int_underscore_first.
  - rewrite <- (append_nil (Py.decimal a ++ _)).
    rewrite <- (append_nil ("" ++ Py.decimal a ++ _)).
    by rewrite (parse_int_number 1) by auto.
  - rewrite <- (append_nil (Py.decimal a ++ _)).
    rewrite <- (append_nil ("" ++ Py.decimal a ++ _)).
    by rewrite (parse_int_number 1) by auto.
Qed.

Lemma PORT_misplaced_underscore_witness :
  PORT {[ "PORT" := "_80" ]} = Raise (InvalidLiteral "_80")
  /\ PORT {[ "PORT" := "80_" ]} = Raise (InvalidLiteral "80_")
  /\ PORT {[ "PORT" := "8__0" ]} = Raise (InvalidLiteral "8__0").
Proof.
  split; [|split].
  - apply (PORT_misplaced_underscore {[ "PORT" := "_80" ]} 0 "80" "_80");
      [reflexivity | by left | reflexivity].
  - apply (PORT_misplaced_underscore {[ "PORT" := "80_" ]} 80 "" "80_");
      [reflexivity | right; by left | reflexivity].
  - apply (PORT_misplaced_underscore {[ "PORT" := "8__0" ]} 8 "0" "8__0");
      [reflexivity | right; by right | reflexivity].
Defined.

(** X14.  Leading zeros do no harm: [PORT] written with zeros before the
    number, as in [0080], resolves to the number. *)
Theorem PORT_leading_zeros (environ : gmap string string) (w : nat) (n : N) :
  (0 < w <= 20)%nat -> (n < 10 ^ N.of_nat w)%N ->
  environ !! "PORT" = Some (Py.fmt_0d w n) ->
  PORT environ = Ok (Z.of_N n).
Proof.
  intros [Hw _] Hn Henv. unfold PORT, environ_get. rewrite Henv. cbn [Py.int].
  rewrite fmt_0d_digits by done.
  destruct w as [|w]; [lia |].
  pose proof (scan_digits_digits_S w n "" false false 0) as Hscan.
  rewrite N.mod_small, append_nil_r in Hscan by done.
  cbn [Py.digits] in *.
  rewrite parse_int_digit_first by apply isdigit_digit.
  rewrite Hscan. cbn [Py.scan_digits Py.skip_spaces]. f_equal; lia.
Qed.

Lemma PORT_leading_zeros_witness : PORT {[ "PORT" := "0080" ]} = Ok 80.
Proof.
  apply (PORT_leading_zeros {[ "PORT" := "0080" ]} 4 80);
    [lia | reflexivity | reflexivity].
Defined.

(** ** More on the greeting *)

Section Greeting.

Lemma append_char_inj (c : ascii) (s t : string) :
  s ++ String c "" = t ++ String c "" -> s = t.
Proof.
  revert t. induction s as [|x s IH]; intros [|y t]; rewrite ?append_cons, ?append_nil.
  - done.
  - intros [= _ H]. by destruct t.
  - intros [= _ H]. by destruct s.
  - intros [= -> H]. f_equal. by apply IH.
Qed.

Lemma greeting_inj (x y : string) :
  "Hello, " ++ x ++ "!" = "Hello, " ++ y ++ "!" -> x = y.
Proof.
  rewrite !append_cons, !append_nil. intros [= H]. by apply append_char_inj in H.
Qed.

Lemma response_get_hello (st : AppState) (history : list (World * Request))
  (w : World) (req : Request) :
  method req = GET -> path req = "/api/hello" ->
  response_after app st history w req
  = jsonify {[ "message" := JStr ("Hello, "
                 ++ List.hd "World" (getlist (args req) "name") ++ "!") ]} 200.
Proof.
  intros Hm Hp. rewrite response_after_dispatch.
  unfold flask.respond, flask.wsgi_app, flask.full_dispatch_request. rewrite dispatch_get_hello by done.
  unfold hello. by rewrite args_get_getlist.
Qed.

End Greeting.

(** X5.  The greeting reads the first value of [name] and nothing else of the
    request or of the process: two GET requests to [/api/hello] whose first
    [name] values agree (or that both have none) get the same response,
    whatever other query parameters, later [name] values, environments and
    histories they have. *)
Theorem hello_reads_first_name_only (st1 st2 : AppState)
  (history1 history2 : list (World * Request)) (w1 w2 : World)
  (req1 req2 : Request) :
  method req1 = GET -> path req1 = "/api/hello" ->
  method req2 = GET -> path req2 = "/api/hello" ->
  List.hd_error (getlist (args req1) "name")
  = List.hd_error (getlist (args req2) "name") ->
  response_after app st1 history1 w1 req1
  = response_after app st2 history2 w2 req2.
Proof.
  intros Hm1 Hp1 Hm2 Hp2 Hhd. rewrite !response_get_hello by done.
  destruct (getlist (args req1) "name"), (getlist (args req2) "name");
    cbn [List.hd_error] in Hhd; by simplify_eq.
Qed.

Lemma hello_reads_first_name_only_witness :
  response_after app Sample.st [] Sample.plain
    (Sample.get "/api/hello" [("name", "Ada")])
  = response_after app Sample.st' [] Sample.later
      (Sample.get "/api/hello" [("page", "2"); ("name", "Ada"); ("name", "Bob")]).
Proof.
  apply (hello_reads_first_name_only Sample.st Sample.st' [] []
           Sample.plain Sample.later); reflexivity.
Defined.

(** X6.  The greeting tells the names apart: when two GET requests to
    [/api/hello] supply the names [X] and [Y] and get the same body, [X] and
    [Y] are the same text. *)
Theorem hello_greeting_tells_name (st1 st2 : AppState)
  (history1 history2 : list (World * Request)) (w1 w2 : World)
  (req1 req2 : Request) (X Y : string) (more1 more2 : list string) :
  method req1 = GET -> path req1 = "/api/hello" ->
  method req2 = GET -> path req2 = "/api/hello" ->
  getlist (args req1) "name" = X :: more1 ->
  getlist (args req2) "name" = Y :: more2 ->
  body (response_after app st1 history1 w1 req1)
  = body (response_after app st2 history2 w2 req2) ->
  X = Y.
Proof.
  intros Hm1 Hp1 Hm2 Hp2 HX HY. rewrite !response_get_hello, HX, HY by done.
  cbn [jsonify body List.hd]. intros Hbody.
  pose proof (f_equal (fun b => match b with
                                | JsonBody o => o !! "message"
                                | _ => None
                                end) Hbody) as Hmap.
  cbv beta iota in Hmap. rewrite !lookup_singleton_eq in Hmap.
  apply greeting_inj. congruence.
Qed.

Lemma hello_greeting_tells_name_witness :
  let req := Sample.get "/api/hello" [("name", "Ada")] in
  body (response_after app Sample.st [] Sample.plain req)
  = body (response_after app Sample.st' [] Sample.later req)
  /\ "Ada" = "Ada".
Proof.
  intros req. split; [reflexivity |].
  apply (hello_greeting_tells_name Sample.st Sample.st' [] []
           Sample.plain Sample.later req req "Ada" "Ada" [] []);
    reflexivity.
Defined.

(** ** More on routing *)

Section Routing.

Lemma has_rule_app (p : string) :
  (has_rule app p = true
   /\ (p = "/health" \/ p = "/api/info" \/ p = "/api/hello"))
  \/ (has_rule app p = false
      /\ p <> "/health" /\ p <> "/api/info" /\ p <> "/api/hello").
Proof.
  unfold has_rule. cbn [url_map app List.existsb].
  unfold flask.path_matches. cbn [rule].
  destruct (String.eqb_spec "/health" p) as [<-|N1]; [left; auto |].
  destruct (String.eqb_spec "/api/info" p) as [<-|N2]; [left; auto |].
  destruct (String.eqb_spec "/api/hello" p) as [<-|N3]; [left; auto |].
  right. split_and!; [done | congruence..].
Qed.

Lemma response_unrouted (st : AppState) (history : list (World * Request))
  (w : World) (req : Request) :
  has_rule app (path req) = false ->
  has_double_slash (path req) = false ->
  under_static (path req) = false \/ method req = GET \/ method req = HEAD ->
  response_after app st history w req
  = jsonify {[ "error" := JStr "Not Found"; "path" := JStr (path req) ]} 404.
Proof.
  intros H Hs Hm.
  destruct (has_rule_app (path req)) as [[H' _] | (_ & N1 & N2 & N3)];
    [congruence |].
  by rewrite response_after_dispatch, respond_unmatched.
Qed.

End Routing.

Section RoutingMore.

Lemma not_found_body_path (p : string) :
  ({[ "error" := JStr "Not Found"; "path" := JStr p ]} : gmap string jvalue)
    !! "path" = Some (JStr p).
Proof. reflexivity. Qed.

End RoutingMore.

(** X7.  The answer of the not-found handler tells the path and nothing else.
    Take two requests whose paths have none of the three rules and no doubled
    slash, each either not under [/static/] or made with GET or HEAD: they get
    the same response exactly when the paths are the same, whatever their
    methods, query parameters, environments and histories. *)
Theorem not_found_tells_path (st1 st2 : AppState)
  (history1 history2 : list (World * Request)) (w1 w2 : World)
  (req1 req2 : Request) :
  has_rule app (path req1) = false -> has_rule app (path req2) = false ->
  has_double_slash (path req1) = false -> has_double_slash (path req2) = false ->
  under_static (path req1) = false \/ method req1 = GET \/ method req1 = HEAD ->
  under_static (path req2) = false \/ method req2 = GET \/ method req2 = HEAD ->
  response_after app st1 history1 w1 req1 = response_after app st2 history2 w2 req2
  <-> path req1 = path req2.
Proof.
  intros H1 H2 Hs1 Hs2 Hm1 Hm2. rewrite !response_unrouted by done. split.
  - intros Hr.
    pose proof (f_equal (fun r => json_field r "path") Hr) as Hp.
    unfold json_field in Hp. cbn [jsonify body] in Hp.
    rewrite !not_found_body_path in Hp. congruence.
  - by intros ->.
Qed.

Lemma not_found_tells_path_witness :
  response_after app Sample.st [] Sample.plain
    {| method := POST; path := "/login"; args := [("user", "ada")] |}
  = response_after app Sample.st' [] Sample.later (Sample.get "/login" []).
Proof.
  apply (not_found_tells_path Sample.st Sample.st' [] [] Sample.plain Sample.later
           {| method := POST; path := "/login"; args := [("user", "ada")] |}
           (Sample.get "/login" [])); try reflexivity; by left.
Defined.

(** X8.  The routes answer GET, and with it HEAD and OPTIONS, and no other
    method: a request to a path that has a rule gets status 200 when its
    method is one of these three, and status 405 with the framework's error
    page when it is any other; it never gets 404. *)
Theorem routed_path_status (st : AppState)
  (history : list (World * Request)) (w : World) (req : Request) :
  has_rule app (path req) = true ->
  let r := response_after app st history w req in
  (method req = GET \/ method req = HEAD \/ method req = OPTIONS ->
   status_code r = 200)
  /\ (method req <> GET -> method req <> HEAD -> method req <> OPTIONS ->
      r = {| status_code := 405; body := ErrorPage 405 |})
  /\ status_code r <> 404.
Proof.
  intros H r. subst r. rewrite response_after_dispatch.
  destruct (has_rule_app (path req)) as [[_ Hp] | [H' _]]; [|congruence].
  destruct req as [m p a]; cbn [path method] in *.
  destruct Hp as [-> | [-> | ->]]; destruct m;
    (split_and!;
     [intros [? | [? | ?]]; done || reflexivity
     | intros; done || reflexivity
     | discriminate]).
Qed.

Lemma routed_path_status_witness :
  status_code (response_after app Sample.st [] Sample.later
                 {| method := HEAD; path := "/health"; args := [] |}) = 200
  /\ response_after app Sample.st [] Sample.later
       {| method := DELETE; path := "/api/info"; args := [] |}
     = {| status_code := 405; body := ErrorPage 405 |}.
Proof.
  split.
  - apply (routed_path_status Sample.st [] Sample.later
             {| method := HEAD; path := "/health"; args := [] |} eq_refl).
    right. by left.
  - apply (routed_path_status Sample.st [] Sample.later
             {| method := DELETE; path := "/api/info"; args := [] |} eq_refl);
      discriminate.
Defined.

(** ** More on the timestamp *)

Section Timestamp.

Lemma response_get_health (st : AppState) (history : list (World * Request))
  (w : World) (req : Request) :
  method req = GET -> path req = "/health" ->
  json_field (response_after app st history w req) "timestamp"
  = Some (JStr (datetime.isoformat (utcnow w))).
Proof.
  intros Hm Hp. rewrite response_after_dispatch.
  unfold flask.respond, flask.wsgi_app, flask.full_dispatch_request. by rewrite dispatch_get_health.
Qed.

Lemma lex_Eq (c1 c2 : comparison) :
  datetime.lex c1 c2 = Eq -> c1 = Eq /\ c2 = Eq.
Proof. by destruct c1. Qed.

Lemma datetime_compare_eq (a b : datetime.t) :
  datetime.compare a b = Eq -> a = b.
Proof.
  destruct a, b. unfold datetime.compare. cbn.
  repeat (intros [?%N.compare_eq_iff H]%lex_Eq; revert H).
  intros ?%N.compare_eq_iff. congruence.
Qed.

Lemma datetime_compare_refl (a : datetime.t) : datetime.compare a a = Eq.
Proof. unfold datetime.compare. by rewrite !N.compare_refl. Qed.

Lemma length_app (a b : string) :
  String.length (a ++ b) = (String.length a + String.length b)%nat.
Proof.
  induction a as [|c a IH]; [done |].
  rewrite append_cons. cbn [String.length]. by rewrite IH.
Qed.

Lemma length_isoformat (d : datetime.t) :
  datetime.valid d = true ->
  String.length (datetime.isoformat d)
  = if (datetime.microsecond d =? 0)%N then 19%nat else 26%nat.
Proof.
  intros (Hy & Hm & Hd & Hh & Hmi & Hs & Hu)%valid_bounds.
  unfold datetime.isoformat.
  rewrite !fmt_0d_digits by (done || lia).
  destruct (datetime.microsecond d =? 0)%N;
    rewrite ?fmt_0d_digits by (done || lia);
    rewrite !length_app, !length_digits; reflexivity.
Qed.

End Timestamp.

(** X10.  The timestamp loses nothing of the clock reading: when two GET
    requests to [/health] get the same timestamp, the UTC clock read the same
    date and time, to the microsecond, at both. *)
Theorem health_timestamp_tells_instant (st1 st2 : AppState)
  (history1 history2 : list (World * Request)) (w1 w2 : World)
  (req1 req2 : Request) :
  method req1 = GET -> path req1 = "/health" ->
  method req2 = GET -> path req2 = "/health" ->
  datetime.valid (utcnow w1) = true -> datetime.valid (utcnow w2) = true ->
  json_field (response_after app st1 history1 w1 req1) "timestamp"
  = json_field (response_after app st2 history2 w2 req2) "timestamp" ->
  utcnow w1 = utcnow w2.
Proof.
  intros Hm1 Hp1 Hm2 Hp2 Hv1 Hv2. rewrite !response_get_health by done.
  intros Heq. apply datetime_compare_eq.
  rewrite <- compare_isoformat by done.
  assert (datetime.isoformat (utcnow w1) = datetime.isoformat (utcnow w2)) as ->
    by congruence.
  rewrite compare_isoformat by done. apply datetime_compare_refl.
Qed.

Lemma health_timestamp_tells_instant_witness :
  utcnow Sample.plain = utcnow Sample.debug_empty.
Proof.
  apply (health_timestamp_tells_instant Sample.st Sample.st' [] []
           Sample.plain Sample.debug_empty
           (Sample.get "/health" []) (Sample.get "/health" [("verbose", "1")]));
    reflexivity.
Defined.

(** X11.  The timestamps of two GET requests to [/health] compare, as
    Python compares strings, exactly as the clock readings do: an earlier
    reading gives a smaller text, a later one a greater text, the same reading
    the same text. *)
Theorem health_timestamps_compare (st1 st2 : AppState)
  (history1 history2 : list (World * Request)) (w1 w2 : World)
  (req1 req2 : Request) :
  method req1 = GET -> path req1 = "/health" ->
  method req2 = GET -> path req2 = "/health" ->
  datetime.valid (utcnow w1) = true -> datetime.valid (utcnow w2) = true ->
  exists t1 t2 : string,
    json_field (response_after app st1 history1 w1 req1) "timestamp" = Some (JStr t1)
    /\ json_field (response_after app st2 history2 w2 req2) "timestamp" = Some (JStr t2)
    /\ String.compare t1 t2 = datetime.compare (utcnow w1) (utcnow w2).
Proof.
  intros Hm1 Hp1 Hm2 Hp2 Hv1 Hv2.
  exists (datetime.isoformat (utcnow w1)), (datetime.isoformat (utcnow w2)).
  rewrite !response_get_health by done.
  split_and!; [done | done | by apply compare_isoformat].
Qed.

Lemma health_timestamps_compare_witness :
  exists t1 t2 : string,
    json_field (response_after app Sample.st [] Sample.later
                  (Sample.get "/health" [])) "timestamp" = Some (JStr t1)
    /\ json_field (response_after app Sample.st [] Sample.plain
                     (Sample.get "/health" [])) "timestamp" = Some (JStr t2)
    /\ String.compare t1 t2 = Gt.
Proof.
  apply (health_timestamps_compare Sample.st Sample.st [] []
           Sample.later Sample.plain
           (Sample.get "/health" []) (Sample.get "/health" []));
    reflexivity.
Defined.

(** X12.  The timestamp has 19 characters when the clock reads a whole
    second, the fraction being left out, and 26 characters otherwise. *)
Theorem health_timestamp_length (st : AppState)
  (history : list (World * Request)) (w : World) (req : Request) :
  method req = GET -> path req = "/health" ->
  datetime.valid (utcnow w) = true ->
  exists t : string,
    json_field (response_after app st history w req) "timestamp" = Some (JStr t)
    /\ String.length t
       = if (datetime.microsecond (utcnow w) =? 0)%N then 19%nat else 26%nat.
Proof.
  intros Hm Hp Hv. exists (datetime.isoformat (utcnow w)).
  split; [by apply response_get_health | by apply length_isoformat].
Qed.

Lemma health_timestamp_length_witness :
  exists t : string,
    json_field (response_after app Sample.st [] Sample.plain
                  (Sample.get "/health" [])) "timestamp" = Some (JStr t)
    /\ String.length t = 19%nat.
Proof.
  apply (health_timestamp_length Sample.st [] Sample.plain
           (Sample.get "/health" [])); reflexivity.
Defined.
